(** * onecall: the Phemex client (onecall/phemex.py)

    A shallow embedding of the request-signing routine and the endpoint
    methods of class [Phemex], together with the parts of the Python
    runtime they call: [hashlib.sha256], [hmac.new(...).hexdigest()],
    [urllib.parse.urlencode], [str] and dict access.

    Python [str] values are represented by their UTF-8 encoding, one
    [ascii] per byte, so that [s.encode("utf-8")] is the byte list of the
    Rocq string. *)

From Stdlib Require Import ZArith List String Ascii Bool Lia DecimalString.
Import ListNotations.

Set Warnings "-register-all".

Local Open Scope Z_scope.
Local Open Scope string_scope.
Local Open Scope list_scope.

(** ** Bytes *)

Definition bytes := list Z.

Definition byte_of_ascii (c : ascii) : Z := Z.of_N (N_of_ascii c).

(** [s.encode("utf-8")] *)
Definition encode_utf8 (s : string) : bytes :=
  map byte_of_ascii (list_ascii_of_string s).

Definition ascii_of_byte (b : Z) : ascii := ascii_of_N (Z.to_N b).

(** ** hashlib.sha256 (FIPS 180-4) on 32-bit words held in [Z] *)

Module Hashlib.

Definition word_modulus : Z := 4294967296.

Definition add32 (x y : Z) : Z := (x + y) mod word_modulus.

Definition rotr (n x : Z) : Z :=
  Z.lor (Z.shiftr x n) (Z.shiftl x (32 - n) mod word_modulus).

Definition shr (n x : Z) : Z := Z.shiftr x n.

Definition Ch (x y z : Z) : Z :=
  Z.lxor (Z.land x y) (Z.land (Z.lnot x) z).

Definition Maj (x y z : Z) : Z :=
  Z.lxor (Z.lxor (Z.land x y) (Z.land x z)) (Z.land y z).

Definition bsig0 (x : Z) : Z := Z.lxor (Z.lxor (rotr 2 x) (rotr 13 x)) (rotr 22 x).
Definition bsig1 (x : Z) : Z := Z.lxor (Z.lxor (rotr 6 x) (rotr 11 x)) (rotr 25 x).
Definition ssig0 (x : Z) : Z := Z.lxor (Z.lxor (rotr 7 x) (rotr 18 x)) (shr 3 x).
Definition ssig1 (x : Z) : Z := Z.lxor (Z.lxor (rotr 17 x) (rotr 19 x)) (shr 10 x).

(** The constants of FIPS 180-4 are fractional parts of roots of the first
    primes; they are computed here from that definition. *)
Definition is_prime (n : Z) : bool :=
  forallb (fun d => negb (n mod d =? 0)%Z) (map Z.of_nat (seq 2 (Z.to_nat n - 2))).

Definition first_primes (count : nat) : list Z :=
  firstn count (filter is_prime (map Z.of_nat (seq 2 400))).

(** Floor of the cube root of [n], one bit at a time below [2 ^ bits]. *)
Fixpoint cube_root_below (bits : nat) (n r : Z) : Z :=
  match bits with
  | O => r
  | S k =>
      let c := r + 2 ^ Z.of_nat k in
      cube_root_below k n (if (c * c * c <=? n)%Z then c else r)
  end.

(** First 32 bits of the fractional part of the cube root of [p]. *)
Definition cube_root_fraction (p : Z) : Z :=
  cube_root_below 36 (p * 2 ^ 96) 0 mod word_modulus.

(** First 32 bits of the fractional part of the square root of [p]. *)
Definition square_root_fraction (p : Z) : Z :=
  Z.sqrt (p * 2 ^ 64) mod word_modulus.

(** K_0 .. K_63, from the first sixty-four primes. *)
Definition round_constants : list Z :=
  Eval vm_compute in map cube_root_fraction (first_primes 64).

(** The eight working words a..h, also the running hash value. *)
Record regs : Type := Regs {
  ra : Z; rb : Z; rc : Z; rd : Z; re : Z; rf : Z; rg : Z; rh : Z
}.

(** H(0), from the first eight primes. *)
Definition initial_hash : regs :=
  Eval vm_compute in
    match map square_root_fraction (first_primes 8) with
    | [a; b; c; d; e; f; g; h] => Regs a b c d e f g h
    | _ => Regs 0 0 0 0 0 0 0 0
    end.

(** Big-endian 32-bit words of a byte list (a trailing partial word is
    dropped; blocks are always 64 bytes long). *)
Fixpoint be_words (bs : bytes) : list Z :=
  match bs with
  | b0 :: b1 :: b2 :: b3 :: rest =>
      (b0 * 16777216 + b1 * 65536 + b2 * 256 + b3) :: be_words rest
  | _ => []
  end.

(** Message schedule: W_t for 16 <= t < 64, appended one at a time. *)
Fixpoint extend_schedule (n : nat) (w : list Z) : list Z :=
  match n with
  | O => w
  | S k =>
      let t := List.length w in
      let at_back i := nth (t - i) w 0 in
      let next := add32 (add32 (ssig1 (at_back 2%nat)) (at_back 7%nat))
                        (add32 (ssig0 (at_back 15%nat)) (at_back 16%nat)) in
      extend_schedule k (w ++ [next])
  end.

Definition schedule (block : bytes) : list Z :=
  extend_schedule 48 (be_words block).

Definition round (s : regs) (kw : Z * Z) : regs :=
  let (k, w) := kw in
  let t1 := add32 (add32 (add32 (add32 (rh s) (bsig1 (re s)))
                                (Ch (re s) (rf s) (rg s))) k) w in
  let t2 := add32 (bsig0 (ra s)) (Maj (ra s) (rb s) (rc s)) in
  Regs (add32 t1 t2) (ra s) (rb s) (rc s) (add32 (rd s) t1) (re s) (rf s) (rg s).

Definition compress (h : regs) (block : bytes) : regs :=
  let s := fold_left round (combine round_constants (schedule block)) h in
  Regs (add32 (ra h) (ra s)) (add32 (rb h) (rb s))
       (add32 (rc h) (rc s)) (add32 (rd h) (rd s))
       (add32 (re h) (re s)) (add32 (rf h) (rf s))
       (add32 (rg h) (rg s)) (add32 (rh h) (rh s)).

(** Big-endian bytes of the low [8 * n] bits of [x]. *)
Fixpoint be_bytes (n : nat) (x : Z) : bytes :=
  match n with
  | O => []
  | S k => (Z.shiftr x (8 * Z.of_nat k) mod 256) :: be_bytes k x
  end.

(** Padding: 0x80, zero bytes up to 56 mod 64, then the bit length on
    eight bytes. *)
Definition pad (msg : bytes) : bytes :=
  let len := Z.of_nat (List.length msg) in
  msg ++ [128] ++ repeat 0 (Z.to_nat ((55 - len) mod 64)) ++ be_bytes 8 (8 * len).

(** One 64-byte block per step; [fuel] bounds the number of blocks. *)
Fixpoint absorb (fuel : nat) (h : regs) (bs : bytes) : regs :=
  match fuel with
  | O => h
  | S k =>
      match bs with
      | [] => h
      | _ => absorb k (compress h (firstn 64 bs)) (skipn 64 bs)
      end
  end.

Definition digest_words (msg : bytes) : regs :=
  let padded := pad msg in
  absorb (List.length padded) initial_hash padded.

Definition regs_bytes (h : regs) : bytes :=
  be_bytes 4 (ra h) ++ be_bytes 4 (rb h) ++ be_bytes 4 (rc h) ++ be_bytes 4 (rd h)
  ++ be_bytes 4 (re h) ++ be_bytes 4 (rf h) ++ be_bytes 4 (rg h) ++ be_bytes 4 (rh h).

(** [hashlib.sha256(msg).digest()] *)
Definition sha256 (msg : bytes) : bytes := regs_bytes (digest_words msg).

End Hashlib.

(** ** hmac.new(key, msg, hashlib.sha256) (RFC 2104, block size 64) *)

Module Hmac.

Definition block_size : nat := 64.

(** Keys longer than a block are hashed first; the result is padded with
    zero bytes to a full block. *)
Definition block_key (key : bytes) : bytes :=
  let k := if (block_size <? List.length key)%nat then Hashlib.sha256 key else key in
  k ++ repeat 0 (block_size - List.length k).

Definition xor_pad (p : Z) (key : bytes) : bytes := map (Z.lxor p) key.

(** [hmac.new(key, msg, hashlib.sha256).digest()] *)
Definition digest (key msg : bytes) : bytes :=
  let k := block_key key in
  Hashlib.sha256 (xor_pad 0x5c k ++ Hashlib.sha256 (xor_pad 0x36 k ++ msg)).

Definition hex_digit (d : Z) : ascii :=
  if (d <? 10)%Z then ascii_of_byte (48 + d) else ascii_of_byte (87 + d).

Definition hex_byte (b : Z) : string :=
  String (hex_digit ((b / 16) mod 16)) (String (hex_digit (b mod 16)) EmptyString).

Fixpoint hex_of_bytes (bs : bytes) : string :=
  match bs with
  | [] => EmptyString
  | b :: rest => (hex_byte b ++ hex_of_bytes rest)%string
  end.

(** [hmac.new(key, msg, hashlib.sha256).hexdigest()] *)
Definition hexdigest (key msg : bytes) : string := hex_of_bytes (digest key msg).

End Hmac.

(** ** Python values *)

Module Py.

(** The JSON-like values the client handles.  A dict is its item list in
    insertion order, with [str] keys.  A float is carried by the text of
    its [repr]; the embedding does no floating-point arithmetic. *)
Inductive value : Type :=
  | PyNone
  | PyBool (b : bool)
  | PyInt (z : Z)
  | PyFloat (repr : string)
  | PyStr (s : string)
  | PyList (l : list value)
  | PyDict (items : list (string * value)).

(** Exceptions derived from [Exception] that the modelled code can raise;
    [Other] stands for any further class raised by a collaborator. *)
Inductive exn : Type :=
  | TypeError
  | KeyError
  | AttributeError
  | ValueError
  | Other (cls : string).

Inductive outcome (A : Type) : Type :=
  | Ok (a : A)
  | Raise (e : exn).
Arguments Ok {A} a.
Arguments Raise {A} e.

Definition bind_outcome {A B : Type} (o : outcome A) (k : A -> outcome B) : outcome B :=
  match o with
  | Ok a => k a
  | Raise e => Raise e
  end.

(** [bool(v)] *)
Definition truthy (v : value) : bool :=
  match v with
  | PyNone => false
  | PyBool b => b
  | PyInt z => negb (z =? 0)%Z
  | PyFloat r => negb (String.eqb r "0.0" || String.eqb r "-0.0")
  | PyStr s => negb (String.eqb s EmptyString)
  | PyList l => match l with [] => false | _ => true end
  | PyDict d => match d with [] => false | _ => true end
  end.

(** *** dict operations *)

Fixpoint dict_get {A : Type} (d : list (string * A)) (k : string) : option A :=
  match d with
  | [] => None
  | (k', v) :: rest => if String.eqb k' k then Some v else dict_get rest k
  end.

(** [d[k] = v]: an existing key keeps its position. *)
Fixpoint dict_set {A : Type} (d : list (string * A)) (k : string) (v : A)
  : list (string * A) :=
  match d with
  | [] => [(k, v)]
  | (k', v') :: rest =>
      if String.eqb k' k then (k', v) :: rest else (k', v') :: dict_set rest k v
  end.

(** A dict display [{..., **kw}]: the items of [kw] are set in order. *)
Definition dict_update {A : Type} (d kw : list (string * A)) : list (string * A) :=
  fold_left (fun acc kv => dict_set acc (fst kv) (snd kv)) kw d.

(** [v.get(k, default)]; only dicts have the method. *)
Definition get (v : value) (k : string) (default : value) : outcome value :=
  match v with
  | PyDict d => Ok match dict_get d k with Some x => x | None => default end
  | _ => Raise AttributeError
  end.

(** [v[k]] for a [str] subscript. *)
Definition getitem (v : value) (k : string) : outcome value :=
  match v with
  | PyDict d => match dict_get d k with Some x => Ok x | None => Raise KeyError end
  | _ => Raise TypeError
  end.

(** *** str and repr *)

Definition decimal (z : Z) : string := NilZero.string_of_int (Z.to_int z).

Definition lower_hex_digit (d : Z) : ascii :=
  if (d <? 10)%Z then ascii_of_byte (48 + d) else ascii_of_byte (87 + d).

Fixpoint contains_char (c : ascii) (s : string) : bool :=
  match s with
  | EmptyString => false
  | String c' rest => Ascii.eqb c c' || contains_char c rest
  end.

(** One ASCII character of [repr(str)] inside quotes [q]: the quote and
    the backslash are escaped, control characters are written [\t], [\n],
    [\r] or [\xNN], every other character is copied. *)
Definition repr_char (q c : ascii) : string :=
  let b := byte_of_ascii c in
  if Ascii.eqb c q || Ascii.eqb c "\"%char then String "\"%char (String c EmptyString)
  else if (b =? 9)%Z then "\t"
  else if (b =? 10)%Z then "\n"
  else if (b =? 13)%Z then "\r"
  else if (b <? 32)%Z || (b =? 127)%Z then
    String "\"%char (String "x"%char
      (String (lower_hex_digit (b / 16)) (String (lower_hex_digit (b mod 16)) EmptyString)))
  else String c EmptyString.

(** The code points from U+0080 up for which [str.isprintable] is false,
    as inclusive ranges in increasing order: the categories Cc, Cf, Cs,
    Co, Cn, Zl, Zp and Zs of the Unicode database 14.0.0, the one of
    CPython 3.11. *)
Definition nonprintable_ranges : list (Z * Z) :=
  [
    (128, 160); (173, 173); (888, 889); (896, 899); (907, 907); (909, 909);
    (930, 930); (1328, 1328); (1367, 1368); (1419, 1420); (1424, 1424);
    (1480, 1487); (1515, 1518); (1525, 1541); (1564, 1564); (1757, 1757);
    (1806, 1807); (1867, 1868); (1970, 1983); (2043, 2044); (2094, 2095);
    (2111, 2111); (2140, 2141); (2143, 2143); (2155, 2159); (2191, 2199);
    (2274, 2274); (2436, 2436); (2445, 2446); (2449, 2450); (2473, 2473);
    (2481, 2481); (2483, 2485); (2490, 2491); (2501, 2502); (2505, 2506);
    (2511, 2518); (2520, 2523); (2526, 2526); (2532, 2533); (2559, 2560);
    (2564, 2564); (2571, 2574); (2577, 2578); (2601, 2601); (2609, 2609);
    (2612, 2612); (2615, 2615); (2618, 2619); (2621, 2621); (2627, 2630);
    (2633, 2634); (2638, 2640); (2642, 2648); (2653, 2653); (2655, 2661);
    (2679, 2688); (2692, 2692); (2702, 2702); (2706, 2706); (2729, 2729);
    (2737, 2737); (2740, 2740); (2746, 2747); (2758, 2758); (2762, 2762);
    (2766, 2767); (2769, 2783); (2788, 2789); (2802, 2808); (2816, 2816);
    (2820, 2820); (2829, 2830); (2833, 2834); (2857, 2857); (2865, 2865);
    (2868, 2868); (2874, 2875); (2885, 2886); (2889, 2890); (2894, 2900);
    (2904, 2907); (2910, 2910); (2916, 2917); (2936, 2945); (2948, 2948);
    (2955, 2957); (2961, 2961); (2966, 2968); (2971, 2971); (2973, 2973);
    (2976, 2978); (2981, 2983); (2987, 2989); (3002, 3005); (3011, 3013);
    (3017, 3017); (3022, 3023); (3025, 3030); (3032, 3045); (3067, 3071);
    (3085, 3085); (3089, 3089); (3113, 3113); (3130, 3131); (3141, 3141);
    (3145, 3145); (3150, 3156); (3159, 3159); (3163, 3164); (3166, 3167);
    (3172, 3173); (3184, 3190); (3213, 3213); (3217, 3217); (3241, 3241);
    (3252, 3252); (3258, 3259); (3269, 3269); (3273, 3273); (3278, 3284);
    (3287, 3292); (3295, 3295); (3300, 3301); (3312, 3312); (3315, 3327);
    (3341, 3341); (3345, 3345); (3397, 3397); (3401, 3401); (3408, 3411);
    (3428, 3429); (3456, 3456); (3460, 3460); (3479, 3481); (3506, 3506);
    (3516, 3516); (3518, 3519); (3527, 3529); (3531, 3534); (3541, 3541);
    (3543, 3543); (3552, 3557); (3568, 3569); (3573, 3584); (3643, 3646);
    (3676, 3712); (3715, 3715); (3717, 3717); (3723, 3723); (3748, 3748);
    (3750, 3750); (3774, 3775); (3781, 3781); (3783, 3783); (3790, 3791);
    (3802, 3803); (3808, 3839); (3912, 3912); (3949, 3952); (3992, 3992);
    (4029, 4029); (4045, 4045); (4059, 4095); (4294, 4294); (4296, 4300);
    (4302, 4303); (4681, 4681); (4686, 4687); (4695, 4695); (4697, 4697);
    (4702, 4703); (4745, 4745); (4750, 4751); (4785, 4785); (4790, 4791);
    (4799, 4799); (4801, 4801); (4806, 4807); (4823, 4823); (4881, 4881);
    (4886, 4887); (4955, 4956); (4989, 4991); (5018, 5023); (5110, 5111);
    (5118, 5119); (5760, 5760); (5789, 5791); (5881, 5887); (5910, 5918);
    (5943, 5951); (5972, 5983); (5997, 5997); (6001, 6001); (6004, 6015);
    (6110, 6111); (6122, 6127); (6138, 6143); (6158, 6158); (6170, 6175);
    (6265, 6271); (6315, 6319); (6390, 6399); (6431, 6431); (6444, 6447);
    (6460, 6463); (6465, 6467); (6510, 6511); (6517, 6527); (6572, 6575);
    (6602, 6607); (6619, 6621); (6684, 6685); (6751, 6751); (6781, 6782);
    (6794, 6799); (6810, 6815); (6830, 6831); (6863, 6911); (6989, 6991);
    (7039, 7039); (7156, 7163); (7224, 7226); (7242, 7244); (7305, 7311);
    (7355, 7356); (7368, 7375); (7419, 7423); (7958, 7959); (7966, 7967);
    (8006, 8007); (8014, 8015); (8024, 8024); (8026, 8026); (8028, 8028);
    (8030, 8030); (8062, 8063); (8117, 8117); (8133, 8133); (8148, 8149);
    (8156, 8156); (8176, 8177); (8181, 8181); (8191, 8207); (8232, 8239);
    (8287, 8303); (8306, 8307); (8335, 8335); (8349, 8351); (8385, 8399);
    (8433, 8447); (8588, 8591); (9255, 9279); (9291, 9311); (11124, 11125);
    (11158, 11158); (11508, 11512); (11558, 11558); (11560, 11564);
    (11566, 11567); (11624, 11630); (11633, 11646); (11671, 11679);
    (11687, 11687); (11695, 11695); (11703, 11703); (11711, 11711);
    (11719, 11719); (11727, 11727); (11735, 11735); (11743, 11743);
    (11870, 11903); (11930, 11930); (12020, 12031); (12246, 12271);
    (12284, 12288); (12352, 12352); (12439, 12440); (12544, 12548);
    (12592, 12592); (12687, 12687); (12772, 12783); (12831, 12831);
    (42125, 42127); (42183, 42191); (42540, 42559); (42744, 42751);
    (42955, 42959); (42962, 42962); (42964, 42964); (42970, 42993);
    (43053, 43055); (43066, 43071); (43128, 43135); (43206, 43213);
    (43226, 43231); (43348, 43358); (43389, 43391); (43470, 43470);
    (43482, 43485); (43519, 43519); (43575, 43583); (43598, 43599);
    (43610, 43611); (43715, 43738); (43767, 43776); (43783, 43784);
    (43791, 43792); (43799, 43807); (43815, 43815); (43823, 43823);
    (43884, 43887); (44014, 44015); (44026, 44031); (55204, 55215);
    (55239, 55242); (55292, 63743); (64110, 64111); (64218, 64255);
    (64263, 64274); (64280, 64284); (64311, 64311); (64317, 64317);
    (64319, 64319); (64322, 64322); (64325, 64325); (64451, 64466);
    (64912, 64913); (64968, 64974); (64976, 65007); (65050, 65055);
    (65107, 65107); (65127, 65127); (65132, 65135); (65141, 65141);
    (65277, 65280); (65471, 65473); (65480, 65481); (65488, 65489);
    (65496, 65497); (65501, 65503); (65511, 65511); (65519, 65531);
    (65534, 65535); (65548, 65548); (65575, 65575); (65595, 65595);
    (65598, 65598); (65614, 65615); (65630, 65663); (65787, 65791);
    (65795, 65798); (65844, 65846); (65935, 65935); (65949, 65951);
    (65953, 65999); (66046, 66175); (66205, 66207); (66257, 66271);
    (66300, 66303); (66340, 66348); (66379, 66383); (66427, 66431);
    (66462, 66462); (66500, 66503); (66518, 66559); (66718, 66719);
    (66730, 66735); (66772, 66775); (66812, 66815); (66856, 66863);
    (66916, 66926); (66939, 66939); (66955, 66955); (66963, 66963);
    (66966, 66966); (66978, 66978); (66994, 66994); (67002, 67002);
    (67005, 67071); (67383, 67391); (67414, 67423); (67432, 67455);
    (67462, 67462); (67505, 67505); (67515, 67583); (67590, 67591);
    (67593, 67593); (67638, 67638); (67641, 67643); (67645, 67646);
    (67670, 67670); (67743, 67750); (67760, 67807); (67827, 67827);
    (67830, 67834); (67868, 67870); (67898, 67902); (67904, 67967);
    (68024, 68027); (68048, 68049); (68100, 68100); (68103, 68107);
    (68116, 68116); (68120, 68120); (68150, 68151); (68155, 68158);
    (68169, 68175); (68185, 68191); (68256, 68287); (68327, 68330);
    (68343, 68351); (68406, 68408); (68438, 68439); (68467, 68471);
    (68498, 68504); (68509, 68520); (68528, 68607); (68681, 68735);
    (68787, 68799); (68851, 68857); (68904, 68911); (68922, 69215);
    (69247, 69247); (69290, 69290); (69294, 69295); (69298, 69375);
    (69416, 69423); (69466, 69487); (69514, 69551); (69580, 69599);
    (69623, 69631); (69710, 69713); (69750, 69758); (69821, 69821);
    (69827, 69839); (69865, 69871); (69882, 69887); (69941, 69941);
    (69960, 69967); (70007, 70015); (70112, 70112); (70133, 70143);
    (70162, 70162); (70207, 70271); (70279, 70279); (70281, 70281);
    (70286, 70286); (70302, 70302); (70314, 70319); (70379, 70383);
    (70394, 70399); (70404, 70404); (70413, 70414); (70417, 70418);
    (70441, 70441); (70449, 70449); (70452, 70452); (70458, 70458);
    (70469, 70470); (70473, 70474); (70478, 70479); (70481, 70486);
    (70488, 70492); (70500, 70501); (70509, 70511); (70517, 70655);
    (70748, 70748); (70754, 70783); (70856, 70863); (70874, 71039);
    (71094, 71095); (71134, 71167); (71237, 71247); (71258, 71263);
    (71277, 71295); (71354, 71359); (71370, 71423); (71451, 71452);
    (71468, 71471); (71495, 71679); (71740, 71839); (71923, 71934);
    (71943, 71944); (71946, 71947); (71956, 71956); (71959, 71959);
    (71990, 71990); (71993, 71994); (72007, 72015); (72026, 72095);
    (72104, 72105); (72152, 72153); (72165, 72191); (72264, 72271);
    (72355, 72367); (72441, 72703); (72713, 72713); (72759, 72759);
    (72774, 72783); (72813, 72815); (72848, 72849); (72872, 72872);
    (72887, 72959); (72967, 72967); (72970, 72970); (73015, 73017);
    (73019, 73019); (73022, 73022); (73032, 73039); (73050, 73055);
    (73062, 73062); (73065, 73065); (73103, 73103); (73106, 73106);
    (73113, 73119); (73130, 73439); (73465, 73647); (73649, 73663);
    (73714, 73726); (74650, 74751); (74863, 74863); (74869, 74879);
    (75076, 77711); (77811, 77823); (78895, 82943); (83527, 92159);
    (92729, 92735); (92767, 92767); (92778, 92781); (92863, 92863);
    (92874, 92879); (92910, 92911); (92918, 92927); (92998, 93007);
    (93018, 93018); (93026, 93026); (93048, 93052); (93072, 93759);
    (93851, 93951); (94027, 94030); (94088, 94094); (94112, 94175);
    (94181, 94191); (94194, 94207); (100344, 100351); (101590, 101631);
    (101641, 110575); (110580, 110580); (110588, 110588); (110591, 110591);
    (110883, 110927); (110931, 110947); (110952, 110959); (111356, 113663);
    (113771, 113775); (113789, 113791); (113801, 113807); (113818, 113819);
    (113824, 118527); (118574, 118575); (118599, 118607); (118724, 118783);
    (119030, 119039); (119079, 119080); (119155, 119162); (119275, 119295);
    (119366, 119519); (119540, 119551); (119639, 119647); (119673, 119807);
    (119893, 119893); (119965, 119965); (119968, 119969); (119971, 119972);
    (119975, 119976); (119981, 119981); (119994, 119994); (119996, 119996);
    (120004, 120004); (120070, 120070); (120075, 120076); (120085, 120085);
    (120093, 120093); (120122, 120122); (120127, 120127); (120133, 120133);
    (120135, 120137); (120145, 120145); (120486, 120487); (120780, 120781);
    (121484, 121498); (121504, 121504); (121520, 122623); (122655, 122879);
    (122887, 122887); (122905, 122906); (122914, 122914); (122917, 122917);
    (122923, 123135); (123181, 123183); (123198, 123199); (123210, 123213);
    (123216, 123535); (123567, 123583); (123642, 123646); (123648, 124895);
    (124903, 124903); (124908, 124908); (124911, 124911); (124927, 124927);
    (125125, 125126); (125143, 125183); (125260, 125263); (125274, 125277);
    (125280, 126064); (126133, 126208); (126270, 126463); (126468, 126468);
    (126496, 126496); (126499, 126499); (126501, 126502); (126504, 126504);
    (126515, 126515); (126520, 126520); (126522, 126522); (126524, 126529);
    (126531, 126534); (126536, 126536); (126538, 126538); (126540, 126540);
    (126544, 126544); (126547, 126547); (126549, 126550); (126552, 126552);
    (126554, 126554); (126556, 126556); (126558, 126558); (126560, 126560);
    (126563, 126563); (126565, 126566); (126571, 126571); (126579, 126579);
    (126584, 126584); (126589, 126589); (126591, 126591); (126602, 126602);
    (126620, 126624); (126628, 126628); (126634, 126634); (126652, 126703);
    (126706, 126975); (127020, 127023); (127124, 127135); (127151, 127152);
    (127168, 127168); (127184, 127184); (127222, 127231); (127406, 127461);
    (127491, 127503); (127548, 127551); (127561, 127567); (127570, 127583);
    (127590, 127743); (128728, 128732); (128749, 128751); (128765, 128767);
    (128884, 128895); (128985, 128991); (129004, 129007); (129009, 129023);
    (129036, 129039); (129096, 129103); (129114, 129119); (129160, 129167);
    (129198, 129199); (129202, 129279); (129620, 129631); (129646, 129647);
    (129653, 129655); (129661, 129663); (129671, 129679); (129709, 129711);
    (129723, 129727); (129734, 129743); (129754, 129759); (129768, 129775);
    (129783, 129791); (129939, 129939); (129995, 130031); (130042, 131071);
    (173792, 173823); (177977, 177983); (178206, 178207); (183970, 183983);
    (191457, 194559); (195102, 196607); (201547, 917759); (918000, 1114111) ]%Z.

Definition isprintable (cp : Z) : bool :=
  negb (existsb (fun r => (fst r <=? cp)%Z && (cp <=? snd r)%Z) nonprintable_ranges).

(** [x] on [digits] lower-case hexadecimal digits. *)
Fixpoint lower_hex (digits : nat) (x : Z) : string :=
  match digits with
  | O => EmptyString
  | S k => String (lower_hex_digit ((x / 16 ^ Z.of_nat k) mod 16)) (lower_hex k x)
  end.

(** The escape of a non-printable character: [\xNN], [\uNNNN] or
    [\UNNNNNNNN] by the size of its code point. *)
Definition escape_code_point (cp : Z) : string :=
  if (cp <? 256)%Z then String "\"%char (String "x"%char (lower_hex 2 cp))
  else if (cp <? 65536)%Z then String "\"%char (String "u"%char (lower_hex 4 cp))
  else String "\"%char (String "U"%char (lower_hex 8 cp)).

(** A non-ASCII character of [repr(str)], given by its UTF-8 bytes [raw]
    and its code point: copied when printable, escaped otherwise. *)
Definition repr_code_point (raw : string) (cp : Z) : string :=
  if isprintable cp then raw else escape_code_point cp.

(** The six payload bits of a continuation byte. *)
Definition continuation (c : ascii) : Z := byte_of_ascii c - 128.

(** The characters of [repr(str)] inside quotes [q].  The text is read
    character by character: one byte below 0x80, otherwise a lead byte
    with one, two or three continuation bytes.  Bytes that begin no
    character (a stray continuation byte, a truncated sequence) occur in
    the encoding of no [str] and are copied. *)
Fixpoint repr_chars (q : ascii) (s : string) : string :=
  match s with
  | EmptyString => EmptyString
  | String c rest =>
      let b := byte_of_ascii c in
      if (b <? 128)%Z then (repr_char q c ++ repr_chars q rest)%string
      else if (b <? 192)%Z then String c (repr_chars q rest)
      else if (b <? 224)%Z then
        match rest with
        | String c1 rest1 =>
            (repr_code_point (String c (String c1 EmptyString))
               ((b - 192) * 64 + continuation c1)
             ++ repr_chars q rest1)%string
        | _ => String c (repr_chars q rest)
        end
      else if (b <? 240)%Z then
        match rest with
        | String c1 (String c2 rest2) =>
            (repr_code_point (String c (String c1 (String c2 EmptyString)))
               ((b - 224) * 4096 + continuation c1 * 64 + continuation c2)
             ++ repr_chars q rest2)%string
        | _ => String c (repr_chars q rest)
        end
      else
        match rest with
        | String c1 (String c2 (String c3 rest3)) =>
            (repr_code_point (String c (String c1 (String c2 (String c3 EmptyString))))
               ((b - 240) * 262144 + continuation c1 * 4096 + continuation c2 * 64
                + continuation c3)
             ++ repr_chars q rest3)%string
        | _ => String c (repr_chars q rest)
        end
  end.

Definition apostrophe : ascii := ascii_of_byte 39.
Definition double_quote : ascii := ascii_of_byte 34.

(** [repr(s)] of a [str]: single quotes, unless the text has a single
    quote and no double quote. *)
Definition repr_str (s : string) : string :=
  let q := if contains_char apostrophe s && negb (contains_char double_quote s)
           then double_quote else apostrophe in
  String q (repr_chars q s ++ String q EmptyString)%string.

Fixpoint join (sep : string) (l : list string) : string :=
  match l with
  | [] => EmptyString
  | [x] => x
  | x :: rest => (x ++ sep ++ join sep rest)%string
  end.

Fixpoint repr (v : value) : string :=
  match v with
  | PyNone => "None"
  | PyBool true => "True"
  | PyBool false => "False"
  | PyInt z => decimal z
  | PyFloat r => r
  | PyStr s => repr_str s
  | PyList l => ("[" ++ join ", " (map repr l) ++ "]")%string
  | PyDict d =>
      ("{" ++ join ", " (map (fun kv => repr_str (fst kv) ++ ": " ++ repr (snd kv)) d)
           ++ "}")%string
  end.

(** [str(v)] *)
Definition str (v : value) : string :=
  match v with
  | PyStr s => s
  | _ => repr v
  end.

End Py.

(** ** urllib.parse *)

Module Urllib.
Import Py.

Definition upper_hex_digit (d : Z) : ascii :=
  if (d <? 10)%Z then ascii_of_byte (48 + d) else ascii_of_byte (55 + d).

(** Letters, digits and [_.-~] are never quoted. *)
Definition always_safe (b : Z) : bool :=
  ((65 <=? b) && (b <=? 90) || (97 <=? b) && (b <=? 122) || (48 <=? b) && (b <=? 57)
   || (b =? 95) || (b =? 46) || (b =? 45) || (b =? 126))%Z.

Definition quote_plus_char (c : ascii) : string :=
  let b := byte_of_ascii c in
  if always_safe b then String c EmptyString
  else if (b =? 32)%Z then "+"
  else String "%"%char
         (String (upper_hex_digit (b / 16)) (String (upper_hex_digit (b mod 16)) EmptyString)).

(** [quote_plus(s)] with the default empty [safe]. *)
Fixpoint quote_plus (s : string) : string :=
  match s with
  | EmptyString => EmptyString
  | String c rest => (quote_plus_char c ++ quote_plus rest)%string
  end.

Definition urlencode_item (kv : string * value) : string :=
  (quote_plus (fst kv) ++ "=" ++ quote_plus (str (snd kv)))%string.

Definition urlencode_items (items : list (string * value)) : string :=
  join "&" (map urlencode_item items).

(** [urlencode(query)].  A mapping is encoded item by item; an empty
    sequence gives the empty string; anything else, [None] included, is
    "not a valid non-string sequence or mapping object". *)
Definition urlencode (query : value) : outcome string :=
  match query with
  | PyDict items => Ok (urlencode_items items)
  | PyList [] => Ok EmptyString
  | PyStr EmptyString => Ok EmptyString
  | _ => Raise TypeError
  end.

End Urllib.

(** ** Requests, the world and the effect monad *)

Module Client.
Import Py.

Definition headers := list (string * value).

(** What [send_request] hands to the transport. *)
Record request : Type := Request {
  req_method : string;
  req_path : string;
  req_header : headers;
  req_query : string;
  req_body : value
}.

(** [self._logger] of the instance, or the root logger of [logging]. *)
Inductive logger : Type := InstanceLogger | RootLogger.

(** The observable effects of a call: the requests handed to the
    transport and the errors logged, oldest first. *)
Record world : Type := World {
  sent : list request;
  logged : list (logger * exn)
}.

Definition M (A : Type) : Type := world -> outcome A * world.

Definition ret {A : Type} (a : A) : M A := fun w => (Ok a, w).

Definition bind {A B : Type} (m : M A) (k : A -> M B) : M B :=
  fun w =>
    match m w with
    | (Ok a, w') => k a w'
    | (Raise e, w') => (Raise e, w')
    end.

Definition lift {A : Type} (o : outcome A) : M A := fun w => (o, w).

(** [try: body  except Exception as e: handler(e)] *)
Definition try_except {A : Type} (body : M A) (handler : exn -> M A) : M A :=
  fun w =>
    match body w with
    | (Ok a, w') => (Ok a, w')
    | (Raise e, w') => handler e w'
    end.

Definition log_error (l : logger) (e : exn) : M unit :=
  fun w => (Ok tt, World (sent w) (logged w ++ [(l, e)])).

Notation "x <- m ;; k" := (bind m (fun x => k))
  (at level 61, m at next level, right associativity).
Notation "m ;;; k" := (bind m (fun _ => k))
  (at level 61, right associativity).

(** ** Collaborators *)

(** Modelled from the spec: the [Exchange] base class (base/exchange.py is
    not part of the sources).  It owns the credentials {api key, api
    secret} and the base URL for the lifetime of the client. *)
Record Exchange : Type := MkExchange {
  key : string;
  secret : string;
  base_url : string
}.

(** What the client needs from outside: the clock behind
    [utils.get_current_timestamp], the HTTP transport behind
    [Exchange.send_request] (parsed JSON, or an exception), the two pandas
    operations on data frames and the two base URLs of module [urls].
    [DataFrame_append df] is the attribute lookup [df.append], which fails
    where the library has no such method; its result is the bound method. *)
Record Collaborators (frame : Type) : Type := MkCollaborators {
  get_current_timestamp : Z;
  transport : request -> outcome value;
  DataFrame : value -> list string -> outcome frame;
  DataFrame_append : frame -> outcome (frame -> outcome frame);
  PHEMEX_FUT_BASE_URL : string;
  PHEMEX_FUT_TEST_BASE_URL : string
}.
Arguments get_current_timestamp {frame} _.
Arguments transport {frame} _ _.
Arguments DataFrame {frame} _ _ _.
Arguments DataFrame_append {frame} _ _.
Arguments PHEMEX_FUT_BASE_URL {frame} _.
Arguments PHEMEX_FUT_TEST_BASE_URL {frame} _.

(** ** class Phemex *)

Record endpoint : Type := Endpoint {
  method : string;
  path : string;
  rate_limit : Z
}.

Record Phemex : Type := MkPhemex {
  exchange : Exchange;
  _path_config : list (string * endpoint);
  _LIMIT : Z;
  BUY_SIDE : string;
  SELL_SIDE : string
}.

(** What a method returns: parsed JSON, or a data frame. *)
Inductive result (frame : Type) : Type :=
  | Json (v : value)
  | Frame (f : frame).
Arguments Json {frame} v.
Arguments Frame {frame} f.

Section Phemex.

Context {frame : Type}.
Variable env : Collaborators frame.

Definition __init__ (key secret : string) (debug : bool) : Phemex :=
  {| _path_config :=
       [ ("get_positions", Endpoint "GET" "/accounts/accountPositions" 50);
         ("cancel_orders", Endpoint "DELETE" "/orders/all" 50);
         ("get_data", Endpoint "GET" "/exchange/public/md/v2/kline" 50);
         ("get_orderbook", Endpoint "GET" "/md/orderbook" 50);
         ("get_balance", Endpoint "GET" "accounts/accountPositions" 50);
         ("market_order", Endpoint "POST" "/orders" 50);
         ("limit_order", Endpoint "POST" "/orders" 50);
         ("get_closed_orders", Endpoint "GET" "/exchange/order/list" 50);
         ("get_open_orders", Endpoint "GET" "/orders/activeList" 50) ];
     _LIMIT := 500;
     BUY_SIDE := "BUY";
     SELL_SIDE := "SELL";
     exchange :=
       MkExchange key secret
         (if negb debug then PHEMEX_FUT_BASE_URL env
          else PHEMEX_FUT_TEST_BASE_URL env) |}.

(** [self._path_config.get(name)] followed by [.get("method")] or
    [.get("path")]: a missing name gives [None], and the second [.get]
    then raises [AttributeError]. *)
Definition config (self : Phemex) (name : string) : outcome endpoint :=
  match dict_get (_path_config self) name with
  | Some ep => Ok ep
  | None => Raise AttributeError
  end.

(** [kwargs.get(name)] *)
Definition kwargs_get (kwargs : list (string * value)) (name : string) : value :=
  match dict_get kwargs name with
  | Some v => v
  | None => PyNone
  end.

Definition _get_sign (self : Phemex) (data : string) : string :=
  Hmac.hexdigest (encode_utf8 (secret (exchange self))) (encode_utf8 data).

Definition _get_request_credentials (self : Phemex) (path : string) (expiry : Z)
    (kwargs : list (string * value)) : outcome headers :=
  bind_outcome
    (if truthy (kwargs_get kwargs "params") then
       bind_outcome (Urllib.urlencode (kwargs_get kwargs "params")) (fun q =>
         Ok (_get_sign self (path ++ q ++ str (PyInt expiry))%string))
     else if truthy (kwargs_get kwargs "payload") then
       Ok (_get_sign self
             (path ++ str (PyInt expiry) ++ str (kwargs_get kwargs "payload"))%string)
     else Ok EmptyString)
    (fun signature =>
       Ok [ ("x-phemex-access-token", PyStr (key (exchange self)));
            ("x-phemex-request-signature", PyStr signature);
            ("x-phemex-request-expiry", PyInt expiry) ]).

(** [Exchange.send_request]: the request goes to the transport. *)
Definition send_request (r : request) : M value :=
  fun w => (transport env r, World (sent w ++ [r]) (logged w)).

Definition _signed_request (self : Phemex) (method path : string)
    (params data : value) : M value :=
  let expiry := get_current_timestamp env + 1 in
  header <- lift (_get_request_credentials self path expiry
                    [("params", params); ("payload", data)]) ;;
  query <- lift (Urllib.urlencode params) ;;
  send_request (Request method path header query data).

Definition get_positions (self : Phemex) (currency : value) : M value :=
  let params := PyDict [("currency", currency)] in
  m <- lift (config self "get_positions") ;;
  p <- lift (config self "get_positions") ;;
  response <- _signed_request self (method m) (path p) params PyNone ;;
  data <- lift (get response "data" (PyDict [])) ;;
  lift (get data "positions" PyNone).

Definition cancel_orders (self : Phemex) (symbol : value) : M value :=
  let params := PyDict [("symbol", symbol); ("untriggered", PyBool true)] in
  m <- lift (config self "cancel_orders") ;;
  p <- lift (config self "cancel_orders") ;;
  _signed_request self (method m) (path p) params PyNone.

(** The body of the [try] block of [get_data]: the tabular conversion. *)
Definition get_data_frame (response : value) : outcome frame :=
  let columns := ["timestamp"; "interval"; "last_close"; "open"; "high";
                  "low"; "close"; "volume"; "turnover"] in
  bind_outcome (getitem response "rows") (fun rows =>
  DataFrame env rows columns).

Definition get_data (self : Phemex) (symbol : value) (is_dataframe : bool)
  : M (result frame) :=
  let params := PyDict [("symbol", symbol)] in
  m <- lift (config self "get_data") ;;
  p <- lift (config self "get_data") ;;
  response <- _signed_request self (method m) (path p) params PyNone ;;
  if is_dataframe then
    try_except
      (f <- lift (get_data_frame response) ;; ret (Frame f))
      (fun e => log_error InstanceLogger e ;;; ret (Json response))
  else ret (Json response).

(** The body of the [try] block of [get_orderbook]: bids first, then the
    asks appended. *)
Definition get_orderbook_frame (response : value) : outcome frame :=
  let columns := ["price"; "QTY"] in
  bind_outcome (getitem response "result") (fun r =>
  bind_outcome (getitem r "book") (fun book =>
  bind_outcome (getitem book "bids") (fun bids =>
  bind_outcome (DataFrame env bids columns) (fun df =>
  bind_outcome (DataFrame_append env df) (fun append =>
  bind_outcome (getitem response "result") (fun r' =>
  bind_outcome (getitem r' "book") (fun book' =>
  bind_outcome (getitem book' "asks") (fun asks =>
  bind_outcome (DataFrame env asks columns) (fun df' =>
  append df'))))))))).

Definition get_orderbook (self : Phemex) (symbol : value) (is_dataframe : bool)
  : M (result frame) :=
  let params := PyDict [("symbol", symbol)] in
  m <- lift (config self "get_orderbook") ;;
  p <- lift (config self "get_orderbook") ;;
  response <- _signed_request self (method m) (path p) params PyNone ;;
  if is_dataframe then
    try_except
      (orderbook <- lift (get_orderbook_frame response) ;; ret (Frame orderbook))
      (fun e => log_error RootLogger e ;;; ret (Json response))
  else ret (Json response).

Definition get_balance (self : Phemex) (currency : value) : M value :=
  let params := PyDict [("currency", currency)] in
  m <- lift (config self "get_balance") ;;
  p <- lift (config self "get_balance") ;;
  response <- _signed_request self (method m) (path p) params PyNone ;;
  data <- lift (get response "data" (PyDict [])) ;;
  lift (get data "account" PyNone).

(** [kwargs] is the dict of the extra keyword arguments of the call. *)
Definition market_order (self : Phemex) (client_order_id symbol side order_qty : value)
    (kwargs : list (string * value)) : M value :=
  let payload :=
    PyDict (dict_update
              [ ("clOrdID", client_order_id); ("symbol", symbol); ("side", side);
                ("ordType", PyStr "Market"); ("orderQty", order_qty) ] kwargs) in
  m <- lift (config self "market_order") ;;
  p <- lift (config self "market_order") ;;
  _signed_request self (method m) (path p) PyNone payload.

Definition limit_order (self : Phemex)
    (client_order_id symbol side order_qty price : value)
    (kwargs : list (string * value)) : M value :=
  let payload :=
    PyDict (dict_update
              [ ("clOrdID", client_order_id); ("symbol", symbol); ("side", side);
                ("ordType", PyStr "Limit"); ("orderQty", order_qty);
                ("priceEp", price) ] kwargs) in
  m <- lift (config self "limit_order") ;;
  p <- lift (config self "limit_order") ;;
  _signed_request self (method m) (path p) PyNone payload.

Definition get_closed_orders (self : Phemex) (symbol : value) : M value :=
  let params := PyDict [("symbol", symbol); ("ordStatus", PyStr "Filled")] in
  m <- lift (config self "get_closed_orders") ;;
  p <- lift (config self "get_closed_orders") ;;
  _signed_request self (method m) (path p) params PyNone.

Definition get_open_orders (self : Phemex) (symbol : value) : M value :=
  let params := PyDict [("symbol", symbol)] in
  m <- lift (config self "get_open_orders") ;;
  p <- lift (config self "get_open_orders") ;;
  _signed_request self (method m) (path p) params PyNone.

End Phemex.

End Client.

Import Py Client.

(** ** Vocabulary of the statements *)

Definition is_lower_hex (c : ascii) : bool :=
  let b := byte_of_ascii c in
  ((48 <=? b) && (b <=? 57) || (97 <=? b) && (b <=? 102))%Z.

Fixpoint string_forallb (p : ascii -> bool) (s : string) : bool :=
  match s with
  | EmptyString => true
  | String c rest => p c && string_forallb p rest
  end.

(** The text of a SHA-256 digest in lower-case hexadecimal. *)
Definition lower_hex_digest (s : string) : Prop :=
  String.length s = 64%nat /\ string_forallb is_lower_hex s = true.

Definition signature_header : string := "x-phemex-request-signature".

(** The signature entry of what the builder returns. *)
Definition signature_of (o : outcome headers) : outcome (option value) :=
  bind_outcome o (fun hdr => Ok (dict_get hdr signature_header)).

Definition closing_brace : ascii := ascii_of_byte 125.

(** The two canonical signing strings of [_get_request_credentials]. *)
Definition canonical_params (path query : string) (expiry : Z) : string :=
  (path ++ query ++ str (PyInt expiry))%string.

Definition canonical_payload (path : string) (expiry : Z) (payload : value) : string :=
  (path ++ str (PyInt expiry) ++ str payload)%string.

(** The header set [_get_request_credentials] assembles around a signature. *)
Definition header_set (key signature : string) (expiry : Z) : headers :=
  [ ("x-phemex-access-token", PyStr key);
    ("x-phemex-request-signature", PyStr signature);
    ("x-phemex-request-expiry", PyInt expiry) ].

(** A transport that answers every request with [resp], a failing and a
    working data-frame constructor, for the worked examples. *)
Definition sample_response : value :=
  PyDict [ ("code", PyInt 0); ("msg", PyStr EmptyString);
           ("data", PyDict [ ("positions", PyList [PyDict [("symbol", PyStr "BTCUSD")]]);
                             ("account", PyDict [("accountId", PyInt 0)]) ]) ].

Definition sample_env (resp : value) : Collaborators (list string * value) :=
  MkCollaborators (list string * value) 1700000000
    (fun _ => Ok resp)
    (fun rows columns =>
       match rows with
       | PyList _ => Ok (columns, rows)
       | _ => Raise ValueError
       end)
    (fun _ => Raise AttributeError)
    "https://api.phemex.com" "https://testnet-api.phemex.com".

Definition sample_client : Phemex :=
  __init__ (sample_env sample_response) "KEY" "SECRET" false.

Definition fresh_world : world := World [] [].

(** The request [_signed_request] hands to the transport when [params] is
    a non-empty mapping. *)
Definition signed_query_request {frame : Type} (env : Collaborators frame)
    (self : Phemex) (method path : string) (items : list (string * value))
    (data : value) : request :=
  let expiry := get_current_timestamp env + 1 in
  Request method path
    (header_set (key (exchange self))
       (_get_sign self (canonical_params path (Urllib.urlencode_items items) expiry))
       expiry)
    (Urllib.urlencode_items items) data.

(** Between [before] and [after] exactly one request went out, with the
    method and path of the descriptor [ep]. *)
Definition issues_one_request (ep : endpoint) (before after : world) : Prop :=
  exists r,
    sent after = sent before ++ [r] /\
    req_method r = method ep /\ req_path r = path ep.

(** The descriptor recorded under [name] in the client's table. *)
Definition descriptor (self : Phemex) (name : string) : option endpoint :=
  dict_get (_path_config self) name.

(** ** Further vocabulary *)

(** Number of occurrences of a character in a text. *)
Fixpoint count_char (c : ascii) (s : string) : nat :=
  match s with
  | EmptyString => O
  | String c' rest => ((if Ascii.eqb c c' then 1 else 0) + count_char c rest)%nat
  end.

Definition ampersand : ascii := ascii_of_byte 38.
Definition equals_sign : ascii := ascii_of_byte 61.
Definition nul : ascii := ascii_of_byte 0.

(** A character [quote_plus] copies unchanged. *)
Definition is_safe_char (c : ascii) : bool := Urllib.always_safe (byte_of_ascii c).

(** A transport that raises [e] on every request. *)
Definition failing_env (e : exn) : Collaborators (list string * value) :=
  MkCollaborators (list string * value) 1700000000
    (fun _ => Raise e)
    (fun rows columns => Ok (columns, rows))
    (fun _ => Raise AttributeError)
    "https://api.phemex.com" "https://testnet-api.phemex.com".

(** A data-frame library with [append]: a frame is its columns and rows,
    and appending puts the two row values side by side. *)
Definition appending_env (resp : value) : Collaborators (list string * value) :=
  MkCollaborators (list string * value) 1700000000
    (fun _ => Ok resp)
    (fun rows columns =>
       match rows with
       | PyList _ => Ok (columns, rows)
       | _ => Raise ValueError
       end)
    (fun df => Ok (fun other => Ok (fst df, PyList [snd df; snd other])))
    "https://api.phemex.com" "https://testnet-api.phemex.com".

Definition sample_orderbook : value :=
  PyDict [ ("error", PyNone); ("id", PyInt 0);
           ("result",
            PyDict [ ("book", PyDict [ ("asks", PyList [PyList [PyInt 87705000; PyInt 1000]]);
                                       ("bids", PyList [PyList [PyInt 87700000; PyInt 2000]]) ]);
                     ("depth", PyInt 30); ("symbol", PyStr "BTCUSD") ]) ].

(** Value of an upper-case hexadecimal digit. *)
Definition hex_value (c : ascii) : Z :=
  let b := byte_of_ascii c in
  if (b <? 58)%Z then b - 48 else b - 55.

(** Decoding of a query-string component, as the receiving side does it:
    [+] is a space and [%XX] the byte [XX].  It serves to show that
    [quote_plus] loses nothing. *)
Fixpoint unquote_plus (s : string) : string :=
  match s with
  | EmptyString => EmptyString
  | String c rest =>
      if Ascii.eqb c "%"%char then
        match rest with
        | String h (String l rest') =>
            String (ascii_of_byte (16 * hex_value h + hex_value l)) (unquote_plus rest')
        | _ => String c (unquote_plus rest)
        end
      else if Ascii.eqb c "+"%char then String " "%char (unquote_plus rest)
      else String c (unquote_plus rest)
  end.

(** The parameters as [urlencode] reads them: each key with the text of
    its value. *)
Definition parameter_texts (items : list (string * value)) : list (string * string) :=
  map (fun kv => (fst kv, str (snd kv))) items.

(** [chr(cp)]: the character of code point [cp], in UTF-8. *)
Definition chr (cp : Z) : string :=
  let byte (b : Z) (rest : string) := String (ascii_of_byte b) rest in
  if (cp <? 128)%Z then byte cp EmptyString
  else if (cp <? 2048)%Z then
    byte (192 + cp / 64) (byte (128 + cp mod 64) EmptyString)
  else if (cp <? 65536)%Z then
    byte (224 + cp / 4096)
      (byte (128 + (cp / 64) mod 64) (byte (128 + cp mod 64) EmptyString))
  else
    byte (240 + cp / 262144)
      (byte (128 + (cp / 4096) mod 64)
         (byte (128 + (cp / 64) mod 64) (byte (128 + cp mod 64) EmptyString))).

(** ** The runtime model against published test vectors *)

Example sha256_constants :
  nth 0 Hashlib.round_constants 0 = 0x428a2f98
  /\ nth 63 Hashlib.round_constants 0 = 0xc67178f2
  /\ List.length Hashlib.round_constants = 64%nat
  /\ Hashlib.ra Hashlib.initial_hash = 0x6a09e667
  /\ Hashlib.rh Hashlib.initial_hash = 0x5be0cd19.
Proof. repeat split; reflexivity. Qed.

Example sha256_abc :
  Hmac.hex_of_bytes (Hashlib.sha256 (encode_utf8 "abc"))
  = "ba7816bf8f01cfea414140de5dae2223b00361a396177a9cb410ff61f20015ad".
Proof. vm_compute. reflexivity. Qed.

Example sha256_empty :
  Hmac.hex_of_bytes (Hashlib.sha256 (encode_utf8 EmptyString))
  = "e3b0c44298fc1c149afbf4c8996fb92427ae41e4649b934ca495991b7852b855".
Proof. vm_compute. reflexivity. Qed.

Example sha256_two_blocks :
  Hmac.hex_of_bytes (Hashlib.sha256
    (encode_utf8 "abcdbcdecdefdefgefghfghighijhijkijkljklmklmnlmnomnopnopq"))
  = "248d6a61d20638b8e5c026930c3e6039a33ce45964ff2167f6ecedd419db06c1".
Proof. vm_compute. reflexivity. Qed.

Example hmac_rfc4231_case2 :
  Hmac.hexdigest (encode_utf8 "Jefe") (encode_utf8 "what do ya want for nothing?")
  = "5bdcc146bf60754e6a042426089575c75a003f089d2739839dec58b964ec3843".
Proof. vm_compute. reflexivity. Qed.

(** RFC 4231 case 6: a 131-byte key, hashed before use. *)
Example hmac_rfc4231_case6 :
  Hmac.hexdigest (repeat 170 131)
    (encode_utf8 "Test Using Larger Than Block-Size Key - Hash Key First")
  = "60e431591ee0b67f0d8a26aacbf5b77f8e0bc6213728c5140546040f0ee37f54".
Proof. vm_compute. reflexivity. Qed.

Example urlencode_sample :
  Urllib.urlencode (PyDict [ ("symbol", PyStr "BTC USD/~"); ("untriggered", PyBool true);
                             ("k&=", PyInt 7) ])
  = Ok "symbol=BTC+USD%2F~&untriggered=True&k%26%3D=7".
Proof. reflexivity. Qed.

Example str_of_payload_sample :
  str (PyDict [ ("clOrdID", PyStr "a'b"); ("n", PyInt (-42)); ("z", PyInt 0);
                ("l", PyList [PyNone; PyBool true; PyFloat "1.5"]); ("e", PyDict []) ])
  = String.concat EmptyString
      [ "{'clOrdID': "; String double_quote "a'b"; String double_quote EmptyString;
        ", 'n': -42, 'z': 0, 'l': [None, True, 1.5], 'e': {}}" ].
Proof. reflexivity. Qed.

(** Non-ASCII text in a payload: a no-break space and a zero-width space
    are escaped, an accented letter and an emoji are copied. *)
Example str_of_non_ascii_payload_sample :
  str (PyDict [ ("clOrdID", PyStr ("a" ++ chr 160 ++ "b"));
                ("note", PyStr (chr 233 ++ chr 8203 ++ chr 128512)) ])
  = ("{'clOrdID': 'a\xa0b', 'note': '" ++ chr 233 ++ "\u200b" ++ chr 128512 ++ "'}")%string.
Proof. vm_compute. reflexivity. Qed.

Example non_ascii_payload_signature_sample :
  signature_of
    (_get_request_credentials sample_client "/orders" 1700000001
       [("payload", PyDict [("clOrdID", PyStr ("a" ++ chr 160 ++ "b"))])])
  = Ok (Some (PyStr "429a4fd7e32c588664a5704b6a5ca9ae92cbdce848c56e9bcd280d8c94f7f74f")).
Proof. vm_compute. reflexivity. Qed.

(** ** Shape of a hex digest *)

Lemma be_bytes_length : forall n x, List.length (Hashlib.be_bytes n x) = n.
Proof. induction n; intros; simpl; congruence. Qed.

Lemma sha256_length : forall msg, List.length (Hashlib.sha256 msg) = 32%nat.
Proof.
  intros. unfold Hashlib.sha256, Hashlib.regs_bytes.
  repeat rewrite length_app. repeat rewrite be_bytes_length. reflexivity.
Qed.

Lemma string_length_app : forall a b : string,
  String.length (a ++ b)%string = (String.length a + String.length b)%nat.
Proof. induction a; intros; simpl; auto. Qed.

Lemma hex_of_bytes_length : forall bs,
  String.length (Hmac.hex_of_bytes bs) = (2 * List.length bs)%nat.
Proof.
  induction bs as [|b bs IH]; simpl; auto.
  rewrite IH. lia.
Qed.

Lemma hex_digit_lower : forall x, is_lower_hex (Hmac.hex_digit (x mod 16)) = true.
Proof.
  intros x.
  assert (H : (0 <= x mod 16 < 16)%Z) by (apply Z.mod_pos_bound; lia).
  remember (x mod 16)%Z as d eqn:E. clear E.
  assert (C : (d = 0 \/ d = 1 \/ d = 2 \/ d = 3 \/ d = 4 \/ d = 5 \/ d = 6 \/ d = 7 \/
               d = 8 \/ d = 9 \/ d = 10 \/ d = 11 \/ d = 12 \/ d = 13 \/ d = 14 \/
               d = 15)%Z) by lia.
  repeat (destruct C as [C | C]; [subst d; reflexivity |]).
  subst d; reflexivity.
Qed.

Lemma string_forallb_app : forall p (a b : string),
  string_forallb p (a ++ b)%string = string_forallb p a && string_forallb p b.
Proof.
  induction a; intros; simpl; auto.
  rewrite IHa. apply andb_assoc.
Qed.

Lemma hex_of_bytes_lower : forall bs,
  string_forallb is_lower_hex (Hmac.hex_of_bytes bs) = true.
Proof.
  induction bs as [|b bs IH]; simpl; auto.
  rewrite !hex_digit_lower, IH. reflexivity.
Qed.

(** Padding fills the last block: the padded message is a whole number of
    64-byte blocks. *)
Lemma pad_length : forall msg,
  (Z.of_nat (List.length (Hashlib.pad msg)) mod 64 = 0)%Z.
Proof.
  intros msg. unfold Hashlib.pad.
  rewrite !length_app, repeat_length, be_bytes_length. simpl List.length.
  remember (Z.of_nat (List.length msg)) as len eqn:E.
  assert (Hm : (0 <= (55 - len) mod 64 < 64)%Z) by (apply Z.mod_pos_bound; lia).
  rewrite !Nat2Z.inj_add, Z2Nat.id, <- E by lia.
  pose proof (Z.div_mod (55 - len) 64 ltac:(lia)) as Hd.
  replace (len + (Z.of_nat 1 + ((55 - len) mod 64 + Z.of_nat 8)))%Z
    with ((1 - (55 - len) / 64) * 64)%Z by lia.
  apply Z.mod_mul. lia.
Qed.

Lemma hexdigest_shape : forall k m, lower_hex_digest (Hmac.hexdigest k m).
Proof.
  intros. split.
  - unfold Hmac.hexdigest, Hmac.digest.
    rewrite hex_of_bytes_length, sha256_length. reflexivity.
  - apply hex_of_bytes_lower.
Qed.

(** ** The request-credentials builder, branch by branch *)

Lemma truthy_dict : forall items, items <> [] -> truthy (PyDict items) = true.
Proof. intros [|kv rest] H; [congruence | reflexivity]. Qed.

Lemma credentials_params :
  forall self path expiry kwargs items,
    kwargs_get kwargs "params" = PyDict items ->
    items <> [] ->
    _get_request_credentials self path expiry kwargs
    = Ok (header_set (key (exchange self))
            (_get_sign self (canonical_params path (Urllib.urlencode_items items) expiry))
            expiry).
Proof.
  intros self path expiry kwargs items Hp Hne.
  unfold _get_request_credentials.
  rewrite Hp, (truthy_dict items Hne). reflexivity.
Qed.

Lemma credentials_payload :
  forall self path expiry kwargs,
    truthy (kwargs_get kwargs "params") = false ->
    truthy (kwargs_get kwargs "payload") = true ->
    _get_request_credentials self path expiry kwargs
    = Ok (header_set (key (exchange self))
            (_get_sign self (canonical_payload path expiry (kwargs_get kwargs "payload")))
            expiry).
Proof.
  intros self path expiry kwargs Hp Hd.
  unfold _get_request_credentials. rewrite Hp, Hd. reflexivity.
Qed.

Lemma credentials_neither :
  forall self path expiry kwargs,
    truthy (kwargs_get kwargs "params") = false ->
    truthy (kwargs_get kwargs "payload") = false ->
    _get_request_credentials self path expiry kwargs
    = Ok (header_set (key (exchange self)) EmptyString expiry).
Proof.
  intros self path expiry kwargs Hp Hd.
  unfold _get_request_credentials. rewrite Hp, Hd. reflexivity.
Qed.

(** C1.  With a non-empty mapping of query parameters, the signature
    header holds the lower-case hexadecimal text of HMAC-SHA256, keyed by
    the secret, of [path ++ urlencode(params) ++ str(expiry)]. *)
Theorem params_signature_is_hmac_sha256_hex :
  forall (self : Phemex) (path : string) (expiry : Z)
         (kwargs items : list (string * value)),
    kwargs_get kwargs "params" = PyDict items ->
    items <> [] ->
    exists query hdr signature,
      Urllib.urlencode (PyDict items) = Ok query /\
      _get_request_credentials self path expiry kwargs = Ok hdr /\
      dict_get hdr signature_header = Some (PyStr signature) /\
      signature
      = Hmac.hex_of_bytes
          (Hmac.digest (encode_utf8 (secret (exchange self)))
             (encode_utf8 (path ++ query ++ str (PyInt expiry))%string)) /\
      lower_hex_digest signature.
Proof.
  intros self path expiry kwargs items Hp Hne.
  eexists; eexists; eexists.
  split; [reflexivity |].
  split; [apply (credentials_params self path expiry kwargs items Hp Hne) |].
  split; [reflexivity |].
  split; [reflexivity |].
  apply hexdigest_shape.
Qed.

Lemma params_signature_is_hmac_sha256_hex_witness :
  exists query hdr signature,
    Urllib.urlencode (PyDict [("symbol", PyStr "BTC USD"); ("untriggered", PyBool true)])
    = Ok query /\
    _get_request_credentials sample_client "/orders/all" 1700000001
      [ ("params", PyDict [("symbol", PyStr "BTC USD"); ("untriggered", PyBool true)]);
        ("payload", PyNone) ]
    = Ok hdr /\
    dict_get hdr signature_header = Some (PyStr signature) /\
    signature
    = Hmac.hex_of_bytes
        (Hmac.digest (encode_utf8 (secret (exchange sample_client)))
           (encode_utf8 ("/orders/all" ++ query ++ str (PyInt 1700000001))%string)) /\
    lower_hex_digest signature.
Proof.
  apply (params_signature_is_hmac_sha256_hex sample_client "/orders/all" 1700000001
           [ ("params", PyDict [("symbol", PyStr "BTC USD"); ("untriggered", PyBool true)]);
             ("payload", PyNone) ]
           [("symbol", PyStr "BTC USD"); ("untriggered", PyBool true)]).
  - reflexivity.
  - discriminate.
Defined.

(** The same call, evaluated: the text signed and the digest obtained. *)
Example query_signature_example :
  signature_of
    (_get_request_credentials sample_client "/orders/all" 1700000001
       [ ("params", PyDict [("symbol", PyStr "BTC USD"); ("untriggered", PyBool true)]);
         ("payload", PyNone) ])
  = Ok (Some (PyStr "83680df15ec5544ed2d0b8e1f8cde105820a0a4c383982ec5acf287fe2bb8476"))
  /\ canonical_params "/orders/all" "symbol=BTC+USD&untriggered=True" 1700000001
     = "/orders/allsymbol=BTC+USD&untriggered=True1700000001".
Proof. split; vm_compute; reflexivity. Qed.

(** C2.  With no query parameters and a non-empty payload, the signature
    header holds the lower-case hexadecimal text of HMAC-SHA256, keyed by
    the secret, of [path ++ str(expiry) ++ str(payload)], where [str] is
    the default string representation of the payload. *)
Theorem payload_signature_is_hmac_sha256_hex :
  forall (self : Phemex) (path : string) (expiry : Z)
         (kwargs : list (string * value)) (payload : value),
    truthy (kwargs_get kwargs "params") = false ->
    kwargs_get kwargs "payload" = payload ->
    truthy payload = true ->
    exists hdr signature,
      _get_request_credentials self path expiry kwargs = Ok hdr /\
      dict_get hdr signature_header = Some (PyStr signature) /\
      signature
      = Hmac.hex_of_bytes
          (Hmac.digest (encode_utf8 (secret (exchange self)))
             (encode_utf8 (path ++ str (PyInt expiry) ++ str payload)%string)) /\
      lower_hex_digest signature.
Proof.
  intros self path expiry kwargs payload Hp Hd Ht. subst payload.
  eexists; eexists.
  split; [apply (credentials_payload self path expiry kwargs Hp Ht) |].
  split; [reflexivity |].
  split; [reflexivity |].
  apply hexdigest_shape.
Qed.

Lemma payload_signature_is_hmac_sha256_hex_witness :
  exists hdr signature,
    _get_request_credentials sample_client "/orders" 1700000001
      [ ("params", PyNone);
        ("payload", PyDict [("clOrdID", PyStr "id1"); ("orderQty", PyInt 1)]) ]
    = Ok hdr /\
    dict_get hdr signature_header = Some (PyStr signature) /\
    signature
    = Hmac.hex_of_bytes
        (Hmac.digest (encode_utf8 (secret (exchange sample_client)))
           (encode_utf8
              ("/orders" ++ str (PyInt 1700000001)
               ++ str (PyDict [("clOrdID", PyStr "id1"); ("orderQty", PyInt 1)]))%string)) /\
    lower_hex_digest signature.
Proof.
  apply (payload_signature_is_hmac_sha256_hex sample_client "/orders" 1700000001
           [ ("params", PyNone);
             ("payload", PyDict [("clOrdID", PyStr "id1"); ("orderQty", PyInt 1)]) ]
           (PyDict [("clOrdID", PyStr "id1"); ("orderQty", PyInt 1)])).
  - reflexivity.
  - reflexivity.
  - reflexivity.
Defined.

Example payload_signature_example :
  signature_of
    (_get_request_credentials sample_client "/orders" 1700000001
       [ ("params", PyNone);
         ("payload", PyDict [("clOrdID", PyStr "id1"); ("orderQty", PyInt 1)]) ])
  = Ok (Some (PyStr "d765fed50853391483434ab55fa7e03aab88d6136b48d5156155452f01eb6fef"))
  /\ canonical_payload "/orders" 1700000001
       (PyDict [("clOrdID", PyStr "id1"); ("orderQty", PyInt 1)])
     = "/orders1700000001{'clOrdID': 'id1', 'orderQty': 1}".
Proof. split; vm_compute; reflexivity. Qed.

(** ** Strings signed on the two paths never coincide *)

Lemma contains_char_app : forall c (a b : string),
  contains_char c (a ++ b)%string = contains_char c a || contains_char c b.
Proof.
  induction a; intros; simpl; auto.
  rewrite IHa. apply orb_assoc.
Qed.

Lemma string_app_inv_head : forall p a b : string,
  (p ++ a)%string = (p ++ b)%string -> a = b.
Proof.
  induction p; simpl; intros a' b' H; auto.
  inversion H. auto.
Qed.

Lemma string_of_uint_no_brace : forall u,
  contains_char closing_brace (NilEmpty.string_of_uint u) = false.
Proof. induction u; simpl; auto. Qed.

Lemma decimal_no_brace : forall z, contains_char closing_brace (decimal z) = false.
Proof.
  intros z. unfold decimal, NilZero.string_of_int, NilZero.string_of_uint.
  destruct (Z.to_int z) as [u | u]; destruct u; simpl; auto using string_of_uint_no_brace.
Qed.

Lemma quote_plus_char_no_brace : forall c,
  contains_char closing_brace (Urllib.quote_plus_char c) = false.
Proof. intros [[] [] [] [] [] [] [] []]; reflexivity. Qed.

Lemma quote_plus_no_brace : forall s,
  contains_char closing_brace (Urllib.quote_plus s) = false.
Proof.
  induction s; simpl; auto.
  rewrite contains_char_app, quote_plus_char_no_brace, IHs. reflexivity.
Qed.

Lemma urlencode_items_no_brace : forall items,
  contains_char closing_brace (Urllib.urlencode_items items) = false.
Proof.
  unfold Urllib.urlencode_items.
  assert (Hitem : forall kv, contains_char closing_brace (Urllib.urlencode_item kv) = false).
  { intros kv. unfold Urllib.urlencode_item.
    rewrite !contains_char_app, !quote_plus_no_brace. reflexivity. }
  induction items as [|kv [|kv' rest] IH].
  - reflexivity.
  - simpl. apply Hitem.
  - change (contains_char closing_brace
              (Urllib.urlencode_item kv ++ "&"
               ++ join "&" (map Urllib.urlencode_item (kv' :: rest)))%string = false).
    rewrite !contains_char_app, Hitem, IH. reflexivity.
Qed.

Lemma str_dict_has_brace : forall d, contains_char closing_brace (str (PyDict d)) = true.
Proof.
  intros d. unfold str.
  change (repr (PyDict d))
    with ("{" ++ join ", " (map (fun kv => repr_str (fst kv) ++ ": " ++ repr (snd kv)) d)
              ++ "}")%string.
  rewrite !contains_char_app.
  replace (contains_char closing_brace "}") with true by reflexivity.
  rewrite !orb_true_r. reflexivity.
Qed.

Lemma canonical_strings_differ : forall path items expiry d,
  canonical_params path (Urllib.urlencode_items items) expiry
  <> canonical_payload path expiry (PyDict d).
Proof.
  intros path items expiry d H.
  unfold canonical_params, canonical_payload in H.
  apply string_app_inv_head in H.
  apply (f_equal (contains_char closing_brace)) in H.
  rewrite !contains_char_app in H.
  rewrite urlencode_items_no_brace, str_dict_has_brace in H.
  change (str (PyInt expiry)) with (decimal expiry) in H.
  rewrite decimal_no_brace in H. simpl in H. discriminate.
Qed.

(** C4.  When both query parameters and a payload are supplied, the
    parameters win: the signature is the one of the parameters alone, the
    payload has no influence on the header set, and for a payload dict the
    text signed differs from the payload's canonical string. *)
Theorem params_take_precedence_over_payload :
  forall (self : Phemex) (path : string) (expiry : Z)
         (kwargs items : list (string * value)),
    kwargs_get kwargs "params" = PyDict items ->
    items <> [] ->
    truthy (kwargs_get kwargs "payload") = true ->
    signature_of (_get_request_credentials self path expiry kwargs)
    = Ok (Some (PyStr
          (Hmac.hexdigest (encode_utf8 (secret (exchange self)))
             (encode_utf8 (canonical_params path (Urllib.urlencode_items items) expiry)))))
    /\ _get_request_credentials self path expiry kwargs
       = _get_request_credentials self path expiry [("params", PyDict items)]
    /\ forall d, kwargs_get kwargs "payload" = PyDict d ->
         canonical_params path (Urllib.urlencode_items items) expiry
         <> canonical_payload path expiry (kwargs_get kwargs "payload").
Proof.
  intros self path expiry kwargs items Hp Hne Hd.
  rewrite (credentials_params self path expiry kwargs items Hp Hne).
  split; [reflexivity |]. split.
  - symmetry. apply credentials_params; [reflexivity | assumption].
  - intros d E. rewrite E. apply canonical_strings_differ.
Qed.

Lemma params_take_precedence_over_payload_witness :
  signature_of
    (_get_request_credentials sample_client "/orders" 1700000001
       [ ("params", PyDict [("symbol", PyStr "BTCUSD")]);
         ("payload", PyDict [("clOrdID", PyStr "id1")]) ])
  = Ok (Some (PyStr
        (Hmac.hexdigest (encode_utf8 (secret (exchange sample_client)))
           (encode_utf8
              (canonical_params "/orders"
                 (Urllib.urlencode_items [("symbol", PyStr "BTCUSD")]) 1700000001)))))
  /\ _get_request_credentials sample_client "/orders" 1700000001
       [ ("params", PyDict [("symbol", PyStr "BTCUSD")]);
         ("payload", PyDict [("clOrdID", PyStr "id1")]) ]
     = _get_request_credentials sample_client "/orders" 1700000001
         [("params", PyDict [("symbol", PyStr "BTCUSD")])]
  /\ forall d,
       kwargs_get [ ("params", PyDict [("symbol", PyStr "BTCUSD")]);
                    ("payload", PyDict [("clOrdID", PyStr "id1")]) ] "payload"
       = PyDict d ->
       canonical_params "/orders"
         (Urllib.urlencode_items [("symbol", PyStr "BTCUSD")]) 1700000001
       <> canonical_payload "/orders" 1700000001
            (kwargs_get [ ("params", PyDict [("symbol", PyStr "BTCUSD")]);
                          ("payload", PyDict [("clOrdID", PyStr "id1")]) ] "payload").
Proof.
  apply (params_take_precedence_over_payload sample_client "/orders" 1700000001
           [ ("params", PyDict [("symbol", PyStr "BTCUSD")]);
             ("payload", PyDict [("clOrdID", PyStr "id1")]) ]
           [("symbol", PyStr "BTCUSD")]).
  - reflexivity.
  - discriminate.
  - reflexivity.
Defined.

(** C5.  With neither query parameters nor a payload present (absent,
    [None] or empty), the signature header is the empty string. *)
Theorem signature_is_empty_without_params_and_payload :
  forall (self : Phemex) (path : string) (expiry : Z) (kwargs : list (string * value)),
    truthy (kwargs_get kwargs "params") = false ->
    truthy (kwargs_get kwargs "payload") = false ->
    signature_of (_get_request_credentials self path expiry kwargs)
    = Ok (Some (PyStr EmptyString)).
Proof.
  intros self path expiry kwargs Hp Hd.
  rewrite (credentials_neither self path expiry kwargs Hp Hd). reflexivity.
Qed.

Lemma signature_is_empty_without_params_and_payload_witness :
  signature_of
    (_get_request_credentials sample_client "/orders" 1700000001
       [("params", PyNone); ("payload", PyNone)])
  = Ok (Some (PyStr EmptyString))
  /\ signature_of (_get_request_credentials sample_client "/orders" 1700000001 [])
     = Ok (Some (PyStr EmptyString)).
Proof.
  split.
  - apply (signature_is_empty_without_params_and_payload sample_client "/orders"
             1700000001 [("params", PyNone); ("payload", PyNone)]); reflexivity.
  - apply (signature_is_empty_without_params_and_payload sample_client "/orders"
             1700000001 []); reflexivity.
Defined.

(** ** The header set *)

Lemma credentials_shape :
  forall self path expiry kwargs hdr,
    _get_request_credentials self path expiry kwargs = Ok hdr ->
    exists signature,
      hdr = header_set (key (exchange self)) signature expiry /\
      (signature = EmptyString \/
       exists msg, signature = Hmac.hexdigest (encode_utf8 (secret (exchange self))) msg).
Proof.
  intros self path expiry kwargs hdr.
  unfold _get_request_credentials, _get_sign.
  destruct (truthy (kwargs_get kwargs "params")).
  - destruct (Urllib.urlencode (kwargs_get kwargs "params")) as [q | e]; simpl.
    + intros H. inversion H. eexists. split; [reflexivity |]. right. eexists. reflexivity.
    + discriminate.
  - destruct (truthy (kwargs_get kwargs "payload")); simpl;
      intros H; inversion H; eexists; (split; [reflexivity |]).
    + right. eexists. reflexivity.
    + left. reflexivity.
Qed.

Lemma credentials_raise :
  forall self path expiry kwargs e,
    _get_request_credentials self path expiry kwargs = Raise e ->
    truthy (kwargs_get kwargs "params") = true /\
    Urllib.urlencode (kwargs_get kwargs "params") = Raise e.
Proof.
  intros self path expiry kwargs e.
  unfold _get_request_credentials.
  destruct (truthy (kwargs_get kwargs "params")).
  - destruct (Urllib.urlencode (kwargs_get kwargs "params")) as [q | e']; simpl.
    + discriminate.
    + intros H. inversion H. auto.
  - destruct (truthy (kwargs_get kwargs "payload")); simpl; discriminate.
Qed.




Example header_set_example :
  _get_request_credentials sample_client "/orders/activeList" 1700000001
    [("params", PyDict [("symbol", PyStr "BTCUSD")]); ("payload", PyNone)]
  = Ok [ ("x-phemex-access-token", PyStr "KEY");
         ("x-phemex-request-signature",
          PyStr "e90518fc98fc561e8f494463e1add5bd7a84820de60e341ecc72dae08b0176fc");
         ("x-phemex-request-expiry", PyInt 1700000001) ].
Proof. vm_compute. reflexivity. Qed.

(** C7.  The signing routine is deterministic: its result depends on the
    keyword dict only through [params] and [payload], and on the client
    only through its credentials.  Two calls that agree on path, params,
    payload, expiry and secret produce the same signature, and the same
    header set when made with the same api key (the access-token entry). *)
Theorem signing_is_deterministic :
  forall (self1 self2 : Phemex) (path : string) (expiry : Z)
         (kwargs1 kwargs2 : list (string * value)),
    secret (exchange self1) = secret (exchange self2) ->
    kwargs_get kwargs1 "params" = kwargs_get kwargs2 "params" ->
    kwargs_get kwargs1 "payload" = kwargs_get kwargs2 "payload" ->
    signature_of (_get_request_credentials self1 path expiry kwargs1)
    = signature_of (_get_request_credentials self2 path expiry kwargs2)
    /\ (key (exchange self1) = key (exchange self2) ->
        _get_request_credentials self1 path expiry kwargs1
        = _get_request_credentials self2 path expiry kwargs2).
Proof.
  intros self1 self2 path expiry kwargs1 kwargs2 Hs Hp Hd.
  unfold _get_request_credentials, _get_sign.
  rewrite Hs, Hp, Hd.
  split.
  - destruct (truthy (kwargs_get kwargs2 "params")).
    + destruct (Urllib.urlencode (kwargs_get kwargs2 "params")); reflexivity.
    + destruct (truthy (kwargs_get kwargs2 "payload")); reflexivity.
  - intros Hk. rewrite Hk. reflexivity.
Qed.

Lemma signing_is_deterministic_witness :
  signature_of
    (_get_request_credentials
       (__init__ (sample_env sample_response) "KEY" "SECRET" false)
       "/orders" 1700000001
       [("params", PyDict [("symbol", PyStr "BTCUSD")]); ("payload", PyNone)])
  = signature_of
      (_get_request_credentials
         (__init__ (sample_env PyNone) "KEY" "SECRET" true)
         "/orders" 1700000001
         [("payload", PyNone); ("params", PyDict [("symbol", PyStr "BTCUSD")])])
  /\ (key (exchange (__init__ (sample_env sample_response) "KEY" "SECRET" false))
      = key (exchange (__init__ (sample_env PyNone) "KEY" "SECRET" true)) ->
      _get_request_credentials
        (__init__ (sample_env sample_response) "KEY" "SECRET" false)
        "/orders" 1700000001
        [("params", PyDict [("symbol", PyStr "BTCUSD")]); ("payload", PyNone)]
      = _get_request_credentials
          (__init__ (sample_env PyNone) "KEY" "SECRET" true)
          "/orders" 1700000001
          [("payload", PyNone); ("params", PyDict [("symbol", PyStr "BTCUSD")])]).
Proof.
  apply (signing_is_deterministic
           (__init__ (sample_env sample_response) "KEY" "SECRET" false)
           (__init__ (sample_env PyNone) "KEY" "SECRET" true)
           "/orders" 1700000001
           [("params", PyDict [("symbol", PyStr "BTCUSD")]); ("payload", PyNone)]
           [("payload", PyNone); ("params", PyDict [("symbol", PyStr "BTCUSD")])]).
  - reflexivity.
  - reflexivity.
  - reflexivity.
Defined.

(** ** Signed requests *)

Lemma signed_request_with_params :
  forall {frame : Type} (env : Collaborators frame) self method path items data w,
    items <> [] ->
    _signed_request env self method path (PyDict items) data w
    = (transport env (signed_query_request env self method path items data),
       World (sent w ++ [signed_query_request env self method path items data])
             (logged w)).
Proof.
  intros frame env self method path items data w Hne.
  unfold _signed_request, bind, lift.
  rewrite (credentials_params self path (get_current_timestamp env + 1)
             [("params", PyDict items); ("payload", data)] items eq_refl Hne).
  reflexivity.
Qed.

Lemma credentials_without_params :
  forall self path expiry data,
    exists hdr,
      _get_request_credentials self path expiry [("params", PyNone); ("payload", data)]
      = Ok hdr.
Proof.
  intros self path expiry data.
  destruct (truthy data) eqn:Hd.
  - eexists. apply credentials_payload; [reflexivity | exact Hd].
  - eexists. apply credentials_neither; [reflexivity | exact Hd].
Qed.

Lemma signed_request_without_params :
  forall {frame : Type} (env : Collaborators frame) self method path data w,
    _signed_request env self method path PyNone data w = (Raise TypeError, w).
Proof.
  intros frame env self method path data w.
  unfold _signed_request, bind, lift.
  destruct (credentials_without_params self path (get_current_timestamp env + 1) data)
    as [hdr Hh].
  rewrite Hh. reflexivity.
Qed.

(** C3.  A call of [_signed_request] with [params] left at [None] builds
    the credentials, then [urlencode(None)] raises [TypeError] while the
    arguments of [send_request] are evaluated: the world is unchanged, no
    request reaches the transport.  [market_order] and [limit_order] make
    exactly such a call, so they raise [TypeError] for every input. *)
Theorem signed_request_without_params_raises_type_error :
  forall {frame : Type} (env : Collaborators frame) (self : Phemex)
         (method path : string) (data : value) (w : world),
    Urllib.urlencode PyNone = Raise TypeError
    /\ (exists hdr,
          _get_request_credentials self path (get_current_timestamp env + 1)
            [("params", PyNone); ("payload", data)] = Ok hdr)
    /\ _signed_request env self method path PyNone data w = (Raise TypeError, w)
    /\ (forall api_key api_secret debug client_order_id symbol side order_qty kwargs,
          market_order env (__init__ env api_key api_secret debug)
            client_order_id symbol side order_qty kwargs w
          = (Raise TypeError, w))
    /\ (forall api_key api_secret debug client_order_id symbol side order_qty price kwargs,
          limit_order env (__init__ env api_key api_secret debug)
            client_order_id symbol side order_qty price kwargs w
          = (Raise TypeError, w)).
Proof.
  intros frame env self method path data w.
  split; [reflexivity |].
  split; [apply credentials_without_params |].
  split; [apply signed_request_without_params |].
  split; intros.
  - unfold market_order, bind, lift.
    change (config (__init__ env api_key api_secret debug) "market_order")
      with (Ok (Endpoint "POST" "/orders" 50)).
    cbv beta iota. apply signed_request_without_params.
  - unfold limit_order, bind, lift.
    change (config (__init__ env api_key api_secret debug) "limit_order")
      with (Ok (Endpoint "POST" "/orders" 50)).
    cbv beta iota. apply signed_request_without_params.
Qed.

Example market_order_example :
  market_order (sample_env sample_response) sample_client
    (PyStr "id1") (PyStr "BTCUSD") (PyStr "Buy") (PyInt 1)
    [("timeInForce", PyStr "GoodTillCancel")] fresh_world
  = (Raise TypeError, fresh_world).
Proof. vm_compute. reflexivity. Qed.

(** ** The endpoint methods, run on a client built by [__init__] *)

Ltac eval_config :=
  repeat match goal with
  | |- context [config ?s ?n] =>
      let v := eval cbv in (config s n) in change (config s n) with v
  end.

Ltac run_endpoint :=
  unfold bind, lift; eval_config; cbv beta iota; cbn [method path];
  rewrite signed_request_with_params by discriminate.

Section Endpoints.

Context {frame : Type}.
Variable env : Collaborators frame.
Variables api_key api_secret : string.
Variable debug : bool.

Local Abbreviation self := (__init__ env api_key api_secret debug).
Local Abbreviation after w r := (World (sent w ++ [r]) (logged w)).

Lemma run_get_positions : forall currency w,
  get_positions env self currency w
  = (bind_outcome
       (transport env (signed_query_request env self "GET" "/accounts/accountPositions"
                         [("currency", currency)] PyNone))
       (fun response =>
          bind_outcome (get response "data" (PyDict [])) (fun data =>
          get data "positions" PyNone)),
     after w (signed_query_request env self "GET" "/accounts/accountPositions"
                [("currency", currency)] PyNone)).
Proof.
  intros. unfold get_positions. run_endpoint.
  destruct (transport env _) as [resp | e]; [| reflexivity]. simpl.
  destruct (get resp "data" (PyDict [])) as [d | e]; reflexivity.
Qed.

Lemma run_get_balance : forall currency w,
  get_balance env self currency w
  = (bind_outcome
       (transport env (signed_query_request env self "GET" "accounts/accountPositions"
                         [("currency", currency)] PyNone))
       (fun response =>
          bind_outcome (get response "data" (PyDict [])) (fun data =>
          get data "account" PyNone)),
     after w (signed_query_request env self "GET" "accounts/accountPositions"
                [("currency", currency)] PyNone)).
Proof.
  intros. unfold get_balance. run_endpoint.
  destruct (transport env _) as [resp | e]; [| reflexivity]. simpl.
  destruct (get resp "data" (PyDict [])) as [d | e]; reflexivity.
Qed.

Lemma run_cancel_orders : forall symbol w,
  cancel_orders env self symbol w
  = (transport env (signed_query_request env self "DELETE" "/orders/all"
                      [("symbol", symbol); ("untriggered", PyBool true)] PyNone),
     after w (signed_query_request env self "DELETE" "/orders/all"
                [("symbol", symbol); ("untriggered", PyBool true)] PyNone)).
Proof. intros. unfold cancel_orders. run_endpoint. reflexivity. Qed.

Lemma run_get_closed_orders : forall symbol w,
  get_closed_orders env self symbol w
  = (transport env (signed_query_request env self "GET" "/exchange/order/list"
                      [("symbol", symbol); ("ordStatus", PyStr "Filled")] PyNone),
     after w (signed_query_request env self "GET" "/exchange/order/list"
                [("symbol", symbol); ("ordStatus", PyStr "Filled")] PyNone)).
Proof. intros. unfold get_closed_orders. run_endpoint. reflexivity. Qed.

Lemma run_get_open_orders : forall symbol w,
  get_open_orders env self symbol w
  = (transport env (signed_query_request env self "GET" "/orders/activeList"
                      [("symbol", symbol)] PyNone),
     after w (signed_query_request env self "GET" "/orders/activeList"
                [("symbol", symbol)] PyNone)).
Proof. intros. unfold get_open_orders. run_endpoint. reflexivity. Qed.

Lemma run_get_data : forall symbol is_dataframe w,
  get_data env self symbol is_dataframe w
  = let r := signed_query_request env self "GET" "/exchange/public/md/v2/kline"
               [("symbol", symbol)] PyNone in
    match transport env r with
    | Raise e => (Raise e, after w r)
    | Ok response =>
        if is_dataframe then
          match get_data_frame env response with
          | Ok f => (Ok (Frame f), after w r)
          | Raise e =>
              (Ok (Json response),
               World (sent w ++ [r]) (logged w ++ [(InstanceLogger, e)]))
          end
        else (Ok (Json response), after w r)
    end.
Proof.
  intros. unfold get_data. run_endpoint. cbv zeta.
  destruct (transport env _) as [resp | e]; [| reflexivity].
  destruct is_dataframe; [| reflexivity].
  unfold try_except, bind, lift.
  destruct (get_data_frame env resp) as [f | e]; reflexivity.
Qed.

Lemma run_get_orderbook : forall symbol is_dataframe w,
  get_orderbook env self symbol is_dataframe w
  = let r := signed_query_request env self "GET" "/md/orderbook"
               [("symbol", symbol)] PyNone in
    match transport env r with
    | Raise e => (Raise e, after w r)
    | Ok response =>
        if is_dataframe then
          match get_orderbook_frame env response with
          | Ok f => (Ok (Frame f), after w r)
          | Raise e =>
              (Ok (Json response),
               World (sent w ++ [r]) (logged w ++ [(RootLogger, e)]))
          end
        else (Ok (Json response), after w r)
    end.
Proof.
  intros. unfold get_orderbook. run_endpoint. cbv zeta.
  destruct (transport env _) as [resp | e]; [| reflexivity].
  destruct is_dataframe; [| reflexivity].
  unfold try_except, bind, lift.
  destruct (get_orderbook_frame env resp) as [f | e]; reflexivity.
Qed.

End Endpoints.

(** ** Requests against the endpoint-descriptor table *)

Lemma issues_signed_query_request :
  forall {frame : Type} (env : Collaborators frame) self ep items w w',
    sent w' = sent w ++ [signed_query_request env self (method ep) (path ep) items PyNone] ->
    issues_one_request ep w w'.
Proof.
  intros frame env self ep items w w' H.
  eexists. split; [exact H |]. split; reflexivity.
Qed.

(** C8.  What the code does: each of the seven query-parameter methods
    hands exactly one request to the transport, with the HTTP method and
    the path recorded for it in the table; [market_order] and
    [limit_order] hand over none.  The table entries of [get_balance] and
    [get_positions] do not hold the same path: the first lacks the leading
    slash, and so do the requests the two methods send. *)
Theorem balance_and_positions_paths_differ :
  forall {frame : Type} (env : Collaborators frame) (api_key api_secret : string)
         (debug : bool) (arg : value) (is_dataframe : bool)
         (kwargs : list (string * value)) (w : world),
    let self := __init__ env api_key api_secret debug in
    (exists ep, descriptor self "get_positions" = Some ep /\
       issues_one_request ep w (snd (get_positions env self arg w)))
    /\ (exists ep, descriptor self "cancel_orders" = Some ep /\
          issues_one_request ep w (snd (cancel_orders env self arg w)))
    /\ (exists ep, descriptor self "get_data" = Some ep /\
          issues_one_request ep w (snd (get_data env self arg is_dataframe w)))
    /\ (exists ep, descriptor self "get_orderbook" = Some ep /\
          issues_one_request ep w (snd (get_orderbook env self arg is_dataframe w)))
    /\ (exists ep, descriptor self "get_balance" = Some ep /\
          issues_one_request ep w (snd (get_balance env self arg w)))
    /\ (exists ep, descriptor self "get_closed_orders" = Some ep /\
          issues_one_request ep w (snd (get_closed_orders env self arg w)))
    /\ (exists ep, descriptor self "get_open_orders" = Some ep /\
          issues_one_request ep w (snd (get_open_orders env self arg w)))
    /\ sent (snd (market_order env self arg arg arg arg kwargs w)) = sent w
    /\ sent (snd (limit_order env self arg arg arg arg arg kwargs w)) = sent w
    /\ option_map path (descriptor self "get_positions")
       = Some "/accounts/accountPositions"
    /\ option_map path (descriptor self "get_balance")
       = Some "accounts/accountPositions"
    /\ map req_path (sent (snd (get_positions env self arg w)))
       = map req_path (sent w) ++ ["/accounts/accountPositions"]
    /\ map req_path (sent (snd (get_balance env self arg w)))
       = map req_path (sent w) ++ ["accounts/accountPositions"]
    /\ "accounts/accountPositions" <> "/accounts/accountPositions".
Proof.
  intros frame env api_key api_secret debug arg is_dataframe kwargs w self.
  subst self.
  repeat match goal with |- _ /\ _ => split end.
  - eexists. split; [reflexivity |]. rewrite run_get_positions.
    eapply issues_signed_query_request. reflexivity.
  - eexists. split; [reflexivity |]. rewrite run_cancel_orders.
    eapply issues_signed_query_request. reflexivity.
  - eexists. split; [reflexivity |]. rewrite run_get_data. cbv zeta.
    eapply issues_signed_query_request.
    destruct (transport env _) as [resp | e]; [| reflexivity].
    destruct is_dataframe; [| reflexivity].
    destruct (get_data_frame env resp); reflexivity.
  - eexists. split; [reflexivity |]. rewrite run_get_orderbook. cbv zeta.
    eapply issues_signed_query_request.
    destruct (transport env _) as [resp | e]; [| reflexivity].
    destruct is_dataframe; [| reflexivity].
    destruct (get_orderbook_frame env resp); reflexivity.
  - eexists. split; [reflexivity |]. rewrite run_get_balance.
    eapply issues_signed_query_request. reflexivity.
  - eexists. split; [reflexivity |]. rewrite run_get_closed_orders.
    eapply issues_signed_query_request. reflexivity.
  - eexists. split; [reflexivity |]. rewrite run_get_open_orders.
    eapply issues_signed_query_request. reflexivity.
  - unfold market_order, bind, lift. eval_config. cbv beta iota.
    rewrite signed_request_without_params. reflexivity.
  - unfold limit_order, bind, lift. eval_config. cbv beta iota.
    rewrite signed_request_without_params. reflexivity.
  - reflexivity.
  - reflexivity.
  - rewrite run_get_positions. cbn [snd sent]. rewrite map_app. reflexivity.
  - rewrite run_get_balance. cbn [snd sent]. rewrite map_app. reflexivity.
  - discriminate.
Qed.

Example get_balance_request_example :
  map (fun r => (req_method r, req_path r, req_query r))
      (sent (snd (get_balance (sample_env sample_response) sample_client
                    (PyStr "USD") fresh_world)))
  = [("GET", "accounts/accountPositions", "currency=USD")]
  /\ map (fun r => (req_method r, req_path r, req_query r))
         (sent (snd (get_positions (sample_env sample_response) sample_client
                       (PyStr "USD") fresh_world)))
     = [("GET", "/accounts/accountPositions", "currency=USD")].
Proof. split; vm_compute; reflexivity. Qed.

(** ** Tabular conversion *)

(** C9.  When the transport has answered and the tabular conversion of
    the answer fails with an exception [e], [get_data] and [get_orderbook]
    called with [is_dataframe=True] do not raise: [e] is logged (on the
    instance logger, respectively the root logger) and the raw parsed
    response is returned. *)
Theorem tabular_conversion_failure_returns_raw_response :
  forall {frame : Type} (env : Collaborators frame) (api_key api_secret : string)
         (debug : bool) (symbol : value) (w : world) (response : value) (e : exn),
    let self := __init__ env api_key api_secret debug in
    (forall r, transport env r = Ok response) ->
    (get_data_frame env response = Raise e ->
     exists w',
       get_data env self symbol true w = (Ok (Json response), w') /\
       logged w' = logged w ++ [(InstanceLogger, e)])
    /\ (get_orderbook_frame env response = Raise e ->
        exists w',
          get_orderbook env self symbol true w = (Ok (Json response), w') /\
          logged w' = logged w ++ [(RootLogger, e)]).
Proof.
  intros frame env api_key api_secret debug symbol w response e self Ht.
  subst self. split; intros Hf.
  - rewrite run_get_data. cbv zeta. rewrite Ht, Hf.
    eexists. split; reflexivity.
  - rewrite run_get_orderbook. cbv zeta. rewrite Ht, Hf.
    eexists. split; reflexivity.
Qed.

Lemma tabular_conversion_failure_returns_raw_response_witness :
  (exists w',
     get_data (sample_env sample_response) sample_client (PyStr "BTCUSD") true fresh_world
     = (Ok (Json sample_response), w') /\
     logged w' = logged fresh_world ++ [(InstanceLogger, KeyError)])
  /\ (exists w',
        get_orderbook (sample_env sample_response) sample_client (PyStr "BTCUSD") true
          fresh_world
        = (Ok (Json sample_response), w') /\
        logged w' = logged fresh_world ++ [(RootLogger, KeyError)]).
Proof.
  destruct (tabular_conversion_failure_returns_raw_response
              (sample_env sample_response) "KEY" "SECRET" false (PyStr "BTCUSD")
              fresh_world sample_response KeyError (fun r => eq_refl)) as [Hd Ho].
  split.
  - apply Hd. reflexivity.
  - apply Ho. reflexivity.
Defined.

(** A well-formed order book converts up to [df.append], which the sample
    data-frame library does not have: the method still returns the
    response. *)
Example get_orderbook_example :
  let response :=
    PyDict [ ("error", PyNone); ("id", PyInt 0);
             ("result", PyDict [ ("book", PyDict [ ("asks", PyList [PyList [PyInt 2; PyInt 1]]);
                                                   ("bids", PyList [PyList [PyInt 1; PyInt 1]]) ]);
                                 ("depth", PyInt 30) ]) ] in
  get_orderbook_frame (sample_env response) response = Raise AttributeError
  /\ fst (get_orderbook (sample_env response)
            (__init__ (sample_env response) "KEY" "SECRET" true)
            (PyStr "BTCUSD") true fresh_world)
     = Ok (Json response)
  /\ logged (snd (get_orderbook (sample_env response)
                    (__init__ (sample_env response) "KEY" "SECRET" true)
                    (PyStr "BTCUSD") true fresh_world))
     = [(RootLogger, AttributeError)].
Proof. repeat split; vm_compute; reflexivity. Qed.

(** ** Return values *)

(** C10.  The code at the failing input: on a response envelope with
    [data.positions] and [data.account], [get_positions] and
    [get_balance] return those sub-fields and not the envelope the
    transport answered with, which is what their docstrings give as the
    return value and what every other method returns. *)
Lemma positions_and_balance_return_sub_fields :
  transport (sample_env sample_response)
    (signed_query_request (sample_env sample_response) sample_client
       "GET" "/accounts/accountPositions" [("currency", PyStr "USD")] PyNone)
  = Ok sample_response
  /\ fst (get_positions (sample_env sample_response) sample_client (PyStr "USD")
            fresh_world)
     = Ok (PyList [PyDict [("symbol", PyStr "BTCUSD")]])
  /\ fst (get_positions (sample_env sample_response) sample_client (PyStr "USD")
            fresh_world)
     <> Ok sample_response
  /\ fst (get_balance (sample_env sample_response) sample_client (PyStr "USD")
            fresh_world)
     = Ok (PyDict [("accountId", PyInt 0)])
  /\ fst (get_balance (sample_env sample_response) sample_client (PyStr "USD")
            fresh_world)
     <> Ok sample_response.
Proof.
  assert (Hp : fst (get_positions (sample_env sample_response) sample_client
                      (PyStr "USD") fresh_world)
               = Ok (PyList [PyDict [("symbol", PyStr "BTCUSD")]]))
    by (vm_compute; reflexivity).
  assert (Hb : fst (get_balance (sample_env sample_response) sample_client
                      (PyStr "USD") fresh_world)
               = Ok (PyDict [("accountId", PyInt 0)]))
    by (vm_compute; reflexivity).
  split; [reflexivity |].
  split; [exact Hp |].
  split; [rewrite Hp; unfold sample_response; discriminate |].
  split; [exact Hb |].
  rewrite Hb. unfold sample_response. intros H. inversion H.
Qed.

(** X10.  When the transport answers [response]:
    [cancel_orders], [get_closed_orders] and [get_open_orders] return it
    unchanged; [get_data] and [get_orderbook] return it unchanged unless a
    data frame was asked for and the conversion succeeds, in which case
    they return the frame; [get_positions] and [get_balance] return
    [response.get("data", {}).get("positions")], respectively
    [... .get("account")]: a sub-field of the envelope. *)
Theorem endpoint_return_values :
  forall {frame : Type} (env : Collaborators frame) (api_key api_secret : string)
         (debug : bool) (arg : value) (w : world) (response : value),
    let self := __init__ env api_key api_secret debug in
    (forall r, transport env r = Ok response) ->
    fst (cancel_orders env self arg w) = Ok response
    /\ fst (get_closed_orders env self arg w) = Ok response
    /\ fst (get_open_orders env self arg w) = Ok response
    /\ fst (get_data env self arg false w) = Ok (Json response)
    /\ fst (get_orderbook env self arg false w) = Ok (Json response)
    /\ fst (get_data env self arg true w)
       = match get_data_frame env response with
         | Ok f => Ok (Frame f)
         | Raise _ => Ok (Json response)
         end
    /\ fst (get_orderbook env self arg true w)
       = match get_orderbook_frame env response with
         | Ok f => Ok (Frame f)
         | Raise _ => Ok (Json response)
         end
    /\ fst (get_positions env self arg w)
       = bind_outcome (get response "data" (PyDict [])) (fun data =>
         get data "positions" PyNone)
    /\ fst (get_balance env self arg w)
       = bind_outcome (get response "data" (PyDict [])) (fun data =>
         get data "account" PyNone).
Proof.
  intros frame env api_key api_secret debug arg w response self Ht.
  subst self.
  rewrite run_cancel_orders, run_get_closed_orders, run_get_open_orders,
    run_get_positions, run_get_balance, !run_get_data, !run_get_orderbook.
  cbv zeta. rewrite !Ht.
  repeat match goal with |- _ /\ _ => split end; try reflexivity.
  - destruct (get_data_frame env response); reflexivity.
  - destruct (get_orderbook_frame env response); reflexivity.
Qed.

Lemma endpoint_return_values_witness :
  let env := sample_env sample_response in
  let w := fresh_world in
  let arg := PyStr "BTCUSD" in
  fst (cancel_orders env sample_client arg w) = Ok sample_response
  /\ fst (get_closed_orders env sample_client arg w) = Ok sample_response
  /\ fst (get_open_orders env sample_client arg w) = Ok sample_response
  /\ fst (get_data env sample_client arg false w) = Ok (Json sample_response)
  /\ fst (get_orderbook env sample_client arg false w) = Ok (Json sample_response)
  /\ fst (get_data env sample_client arg true w)
     = match get_data_frame env sample_response with
       | Ok f => Ok (Frame f)
       | Raise _ => Ok (Json sample_response)
       end
  /\ fst (get_orderbook env sample_client arg true w)
     = match get_orderbook_frame env sample_response with
       | Ok f => Ok (Frame f)
       | Raise _ => Ok (Json sample_response)
       end
  /\ fst (get_positions env sample_client arg w)
     = bind_outcome (get sample_response "data" (PyDict [])) (fun data =>
       get data "positions" PyNone)
  /\ fst (get_balance env sample_client arg w)
     = bind_outcome (get sample_response "data" (PyDict [])) (fun data =>
       get data "account" PyNone).
Proof.
  exact (endpoint_return_values (sample_env sample_response) "KEY" "SECRET" false
           (PyStr "BTCUSD") fresh_world sample_response (fun r => eq_refl)).
Defined.

(** A response with top-level [rows] is reshaped into a frame. *)
Example get_data_example :
  let response := PyDict [("rows", PyList [PyList [PyInt 1; PyInt 60]])] in
  fst (get_data (sample_env response)
         (__init__ (sample_env response) "KEY" "SECRET" false)
         (PyStr "BTCUSD") true fresh_world)
  = Ok (Frame ([ "timestamp"; "interval"; "last_close"; "open"; "high"; "low"; "close";
                 "volume"; "turnover" ],
               PyList [PyList [PyInt 1; PyInt 60]])).
Proof. vm_compute. reflexivity. Qed.

(** * Further properties of the client *)

(** ** What [_signed_request] sends *)

(** X1.  With a non-empty mapping of parameters exactly one request goes out.
    It carries the method, path and body given; its query string is
    [urlencode(params)]; its expiry header is the clock reading plus one;
    and its signature is the HMAC of the path, the very query string sent
    and that expiry.  A body passed along is sent but not signed. *)
Theorem signed_request_signature_covers_query :
  forall {frame : Type} (env : Collaborators frame) (self : Phemex)
         (method path : string) (items : list (string * value)) (data : value)
         (w : world),
    items <> [] ->
    exists r,
      _signed_request env self method path (PyDict items) data w
      = (transport env r, World (sent w ++ [r]) (logged w)) /\
      req_method r = method /\ req_path r = path /\ req_body r = data /\
      Urllib.urlencode (PyDict items) = Ok (req_query r) /\
      dict_get (req_header r) "x-phemex-access-token"
      = Some (PyStr (key (exchange self))) /\
      dict_get (req_header r) "x-phemex-request-expiry"
      = Some (PyInt (get_current_timestamp env + 1)) /\
      dict_get (req_header r) signature_header
      = Some (PyStr
          (Hmac.hexdigest (encode_utf8 (secret (exchange self)))
             (encode_utf8
                (req_path r ++ req_query r
                 ++ str (PyInt (get_current_timestamp env + 1)))%string))).
Proof.
  intros frame env self method path items data w Hne.
  exists (signed_query_request env self method path items data).
  split; [apply signed_request_with_params; exact Hne |].
  repeat split.
Qed.

Lemma signed_request_signature_covers_query_witness :
  exists r,
    _signed_request (sample_env sample_response) sample_client "DELETE" "/orders/all"
      (PyDict [("symbol", PyStr "BTCUSD"); ("untriggered", PyBool true)])
      (PyDict [("note", PyStr "unsigned")]) fresh_world
    = (transport (sample_env sample_response) r,
       World (sent fresh_world ++ [r]) (logged fresh_world)) /\
    req_method r = "DELETE" /\ req_path r = "/orders/all" /\
    req_body r = PyDict [("note", PyStr "unsigned")] /\
    Urllib.urlencode (PyDict [("symbol", PyStr "BTCUSD"); ("untriggered", PyBool true)])
    = Ok (req_query r) /\
    dict_get (req_header r) "x-phemex-access-token"
    = Some (PyStr (key (exchange sample_client))) /\
    dict_get (req_header r) "x-phemex-request-expiry"
    = Some (PyInt (get_current_timestamp (sample_env sample_response) + 1)) /\
    dict_get (req_header r) signature_header
    = Some (PyStr
        (Hmac.hexdigest (encode_utf8 (secret (exchange sample_client)))
           (encode_utf8
              (req_path r ++ req_query r
               ++ str (PyInt (get_current_timestamp (sample_env sample_response) + 1)))%string))).
Proof.
  apply (signed_request_signature_covers_query (sample_env sample_response)
           sample_client "DELETE" "/orders/all"
           [("symbol", PyStr "BTCUSD"); ("untriggered", PyBool true)]
           (PyDict [("note", PyStr "unsigned")]) fresh_world).
  discriminate.
Defined.

(** X2.  With an empty mapping of parameters the request is sent with an empty
    query string.  Its signature covers path, expiry and [str(data)] when
    a non-empty body is given; without one the signature header is empty,
    and the request still goes to the transport. *)
Theorem signed_request_with_empty_params :
  forall {frame : Type} (env : Collaborators frame) (self : Phemex)
         (method path : string) (data : value) (w : world),
    exists r,
      _signed_request env self method path (PyDict []) data w
      = (transport env r, World (sent w ++ [r]) (logged w)) /\
      req_method r = method /\ req_path r = path /\ req_body r = data /\
      req_query r = EmptyString /\
      dict_get (req_header r) signature_header
      = Some (PyStr
          (if truthy data then
             Hmac.hexdigest (encode_utf8 (secret (exchange self)))
               (encode_utf8
                  (path ++ str (PyInt (get_current_timestamp env + 1)) ++ str data)%string)
           else EmptyString)).
Proof.
  intros frame env self method path data w.
  unfold _signed_request, bind, lift.
  destruct (truthy data) eqn:Hd.
  - rewrite (credentials_payload self path (get_current_timestamp env + 1)
               [("params", PyDict []); ("payload", data)] eq_refl Hd).
    eexists. split; [reflexivity |]. repeat split.
  - rewrite (credentials_neither self path (get_current_timestamp env + 1)
               [("params", PyDict []); ("payload", data)] eq_refl Hd).
    eexists. split; [reflexivity |]. repeat split.
Qed.

(** X3.  Parameters that [urlencode] rejects ([None], numbers, booleans, a
    non-empty string or list) make [_signed_request] raise [TypeError],
    whether or not a body is given, and nothing reaches the transport. *)
Theorem signed_request_rejects_unencodable_params :
  forall {frame : Type} (env : Collaborators frame) (self : Phemex)
         (method path : string) (params data : value) (w : world) (e : exn),
    Urllib.urlencode params = Raise e ->
    e = TypeError /\
    _signed_request env self method path params data w = (Raise TypeError, w).
Proof.
  intros frame env self method path params data w e He.
  assert (Ee : e = TypeError).
  { destruct params as [| b | z | r | s | l | d]; simpl in He;
      try (inversion He; reflexivity).
    - destruct s; [discriminate | inversion He; reflexivity].
    - destruct l; [discriminate | inversion He; reflexivity]. }
  subst e. split; [reflexivity |].
  unfold _signed_request, bind, lift.
  destruct (_get_request_credentials self path (get_current_timestamp env + 1)
              [("params", params); ("payload", data)]) as [hdr | e'] eqn:Ec.
  - rewrite He. reflexivity.
  - apply credentials_raise in Ec. destruct Ec as [_ Ec].
    change (kwargs_get [("params", params); ("payload", data)] "params")
      with params in Ec.
    rewrite He in Ec. inversion Ec. reflexivity.
Qed.

Lemma signed_request_rejects_unencodable_params_witness :
  TypeError = TypeError /\
  _signed_request (sample_env sample_response) sample_client "GET" "/orders/activeList"
    (PyStr "symbol=BTCUSD") PyNone fresh_world
  = (Raise TypeError, fresh_world).
Proof.
  apply (signed_request_rejects_unencodable_params (sample_env sample_response)
           sample_client "GET" "/orders/activeList" (PyStr "symbol=BTCUSD") PyNone
           fresh_world TypeError).
  reflexivity.
Defined.

(** ** Errors and logging in the endpoint methods *)

(** X4.  An exception raised by the transport is not handled anywhere: each
    query method raises it to the caller.  The [try] blocks of [get_data]
    and [get_orderbook] do not cover the request, so with
    [is_dataframe=True] too the exception propagates and nothing is
    logged. *)
Theorem transport_errors_propagate :
  forall {frame : Type} (env : Collaborators frame) (api_key api_secret : string)
         (debug : bool) (arg : value) (is_dataframe : bool) (w : world) (e : exn),
    let self := __init__ env api_key api_secret debug in
    (forall r, transport env r = Raise e) ->
    fst (get_positions env self arg w) = Raise e
    /\ fst (get_balance env self arg w) = Raise e
    /\ fst (cancel_orders env self arg w) = Raise e
    /\ fst (get_closed_orders env self arg w) = Raise e
    /\ fst (get_open_orders env self arg w) = Raise e
    /\ fst (get_data env self arg is_dataframe w) = Raise e
    /\ fst (get_orderbook env self arg is_dataframe w) = Raise e
    /\ logged (snd (get_data env self arg is_dataframe w)) = logged w
    /\ logged (snd (get_orderbook env self arg is_dataframe w)) = logged w.
Proof.
  intros frame env api_key api_secret debug arg is_dataframe w e self Ht.
  subst self.
  rewrite run_get_positions, run_get_balance, run_cancel_orders,
    run_get_closed_orders, run_get_open_orders, !run_get_data, !run_get_orderbook.
  cbv zeta. rewrite !Ht. repeat split.
Qed.

Lemma transport_errors_propagate_witness :
  let env := failing_env (Other "ConnectionError") in
  let self := __init__ env "KEY" "SECRET" false in
  let arg := PyStr "BTCUSD" in
  let e := Other "ConnectionError" in
  fst (get_positions env self arg fresh_world) = Raise e
  /\ fst (get_balance env self arg fresh_world) = Raise e
  /\ fst (cancel_orders env self arg fresh_world) = Raise e
  /\ fst (get_closed_orders env self arg fresh_world) = Raise e
  /\ fst (get_open_orders env self arg fresh_world) = Raise e
  /\ fst (get_data env self arg true fresh_world) = Raise e
  /\ fst (get_orderbook env self arg true fresh_world) = Raise e
  /\ logged (snd (get_data env self arg true fresh_world)) = logged fresh_world
  /\ logged (snd (get_orderbook env self arg true fresh_world)) = logged fresh_world.
Proof.
  exact (transport_errors_propagate (failing_env (Other "ConnectionError"))
           "KEY" "SECRET" false (PyStr "BTCUSD") true fresh_world
           (Other "ConnectionError") (fun r => eq_refl)).
Defined.


(** ** Unwrapping in [get_positions] and [get_balance] *)

(** X6.  How the two [.get] calls treat the answer of the transport.  An
    answer that is a dict without a [data] key gives [None]; so does a
    [data] dict without the wanted key.  An answer whose [data] is not a
    dict (the exchange's [null], say) raises [AttributeError], and so
    does an answer that is not a dict at all. *)
Theorem unwrapping_of_incomplete_responses :
  forall {frame : Type} (env : Collaborators frame) (api_key api_secret : string)
         (debug : bool) (currency : value) (w : world) (response : value),
    let self := __init__ env api_key api_secret debug in
    (forall r, transport env r = Ok response) ->
    (forall items,
       response = PyDict items -> dict_get items "data" = None ->
       fst (get_positions env self currency w) = Ok PyNone /\
       fst (get_balance env self currency w) = Ok PyNone)
    /\ (forall items inner,
          response = PyDict items -> dict_get items "data" = Some (PyDict inner) ->
          (dict_get inner "positions" = None ->
           fst (get_positions env self currency w) = Ok PyNone) /\
          (dict_get inner "account" = None ->
           fst (get_balance env self currency w) = Ok PyNone))
    /\ (forall items v,
          response = PyDict items -> dict_get items "data" = Some v ->
          (forall inner, v <> PyDict inner) ->
          fst (get_positions env self currency w) = Raise AttributeError /\
          fst (get_balance env self currency w) = Raise AttributeError)
    /\ ((forall items, response <> PyDict items) ->
        fst (get_positions env self currency w) = Raise AttributeError /\
        fst (get_balance env self currency w) = Raise AttributeError).
Proof.
  intros frame env api_key api_secret debug currency w response self Ht.
  subst self. rewrite run_get_positions, run_get_balance. rewrite !Ht.
  cbn [fst bind_outcome].
  repeat match goal with |- _ /\ _ => split end.
  - intros items -> Hd. unfold get. rewrite Hd. split; reflexivity.
  - intros items inner -> Hd. unfold get. rewrite Hd. cbn [bind_outcome].
    split; intros Hk; rewrite Hk; reflexivity.
  - intros items v -> Hd Hv. unfold get. rewrite Hd. cbn [bind_outcome].
    destruct v; try (split; reflexivity).
    exfalso. apply (Hv items0). reflexivity.
  - intros Hn. destruct response; try (split; reflexivity).
    exfalso. apply (Hn items). reflexivity.
Qed.

Lemma unwrapping_of_incomplete_responses_witness :
  let response := PyDict [("code", PyInt 10500); ("msg", PyStr "error"); ("data", PyNone)] in
  let env := sample_env response in
  let self := __init__ env "KEY" "SECRET" false in
  fst (get_positions env self (PyStr "USD") fresh_world) = Raise AttributeError /\
  fst (get_balance env self (PyStr "USD") fresh_world) = Raise AttributeError.
Proof.
  refine (let H := unwrapping_of_incomplete_responses
                     (sample_env (PyDict [("code", PyInt 10500); ("msg", PyStr "error");
                                          ("data", PyNone)]))
                     "KEY" "SECRET" false (PyStr "USD") fresh_world
                     (PyDict [("code", PyInt 10500); ("msg", PyStr "error");
                              ("data", PyNone)])
                     (fun r => eq_refl) in _).
  destruct H as [_ [_ [H _]]].
  apply (H [("code", PyInt 10500); ("msg", PyStr "error"); ("data", PyNone)] PyNone).
  - reflexivity.
  - reflexivity.
  - intros inner. discriminate.
Defined.

(** ** Tabular conversion: what it reads *)

(** X7.  [get_data] looks for [rows] at the top level of the answer.  An answer
    without that key, such as the documented envelope that keeps the rows
    under [data], is never converted: whatever the data-frame library
    does, [KeyError] is logged and the raw answer returned.  An answer
    that is no dict is treated alike, with [TypeError]. *)
Theorem get_data_wants_top_level_rows :
  forall {frame : Type} (env : Collaborators frame) (api_key api_secret : string)
         (debug : bool) (symbol : value) (w : world) (response : value),
    let self := __init__ env api_key api_secret debug in
    (forall r, transport env r = Ok response) ->
    (forall items,
       response = PyDict items -> dict_get items "rows" = None ->
       fst (get_data env self symbol true w) = Ok (Json response) /\
       logged (snd (get_data env self symbol true w))
       = logged w ++ [(InstanceLogger, KeyError)])
    /\ ((forall items, response <> PyDict items) ->
        fst (get_data env self symbol true w) = Ok (Json response) /\
        logged (snd (get_data env self symbol true w))
        = logged w ++ [(InstanceLogger, TypeError)])
    /\ (forall items rows,
          response = PyDict items -> dict_get items "rows" = Some rows ->
          fst (get_data env self symbol true w)
          = match DataFrame env rows
                    ["timestamp"; "interval"; "last_close"; "open"; "high"; "low";
                     "close"; "volume"; "turnover"] with
            | Ok f => Ok (Frame f)
            | Raise _ => Ok (Json response)
            end).
Proof.
  intros frame env api_key api_secret debug symbol w response self Ht.
  subst self. rewrite run_get_data. cbv zeta. rewrite Ht.
  unfold get_data_frame.
  repeat match goal with |- _ /\ _ => split end.
  - intros items -> Hr. unfold getitem. rewrite Hr. split; reflexivity.
  - intros Hn. destruct response; try (split; reflexivity).
    exfalso. apply (Hn items). reflexivity.
  - intros items rows -> Hr. unfold getitem. rewrite Hr. cbn [bind_outcome].
    destruct (DataFrame env rows _); reflexivity.
Qed.

Lemma get_data_wants_top_level_rows_witness :
  let response :=
    PyDict [ ("code", PyInt 0); ("msg", PyStr "OK");
             ("data", PyDict [ ("total", PyInt (-1));
                               ("rows", PyList [PyList [PyInt 1590019200; PyInt 300]]) ]) ] in
  let env := sample_env response in
  let self := __init__ env "KEY" "SECRET" false in
  fst (get_data env self (PyStr "BTCUSD") true fresh_world) = Ok (Json response) /\
  logged (snd (get_data env self (PyStr "BTCUSD") true fresh_world))
  = logged fresh_world ++ [(InstanceLogger, KeyError)].
Proof.
  refine (let H := get_data_wants_top_level_rows
                     (sample_env
                        (PyDict [ ("code", PyInt 0); ("msg", PyStr "OK");
                                  ("data", PyDict [ ("total", PyInt (-1));
                                                    ("rows", PyList [PyList [PyInt 1590019200;
                                                                             PyInt 300]]) ]) ]))
                     "KEY" "SECRET" false (PyStr "BTCUSD") fresh_world
                     (PyDict [ ("code", PyInt 0); ("msg", PyStr "OK");
                               ("data", PyDict [ ("total", PyInt (-1));
                                                 ("rows", PyList [PyList [PyInt 1590019200;
                                                                          PyInt 300]]) ]) ])
                     (fun r => eq_refl) in _).
  destruct H as [H _].
  apply (H [ ("code", PyInt 0); ("msg", PyStr "OK");
             ("data", PyDict [ ("total", PyInt (-1));
                               ("rows", PyList [PyList [PyInt 1590019200; PyInt 300]]) ]) ]).
  - reflexivity.
  - reflexivity.
Defined.

(** X8.  When the answer holds [result.book.bids] and [result.book.asks] and
    the data-frame library accepts them, [get_orderbook] returns one
    frame: the bids frame with the asks frame appended, both built with
    the columns [price] and [QTY]; nothing is logged. *)
Theorem get_orderbook_frame_is_bids_then_asks :
  forall {frame : Type} (env : Collaborators frame) (api_key api_secret : string)
         (debug : bool) (symbol : value) (w : world)
         (response : value) (top result book : list (string * value))
         (bids asks : value) (df_bids df_asks orderbook : frame)
         (append : frame -> outcome frame),
    let self := __init__ env api_key api_secret debug in
    (forall r, transport env r = Ok response) ->
    response = PyDict top ->
    dict_get top "result" = Some (PyDict result) ->
    dict_get result "book" = Some (PyDict book) ->
    dict_get book "bids" = Some bids ->
    dict_get book "asks" = Some asks ->
    DataFrame env bids ["price"; "QTY"] = Ok df_bids ->
    DataFrame env asks ["price"; "QTY"] = Ok df_asks ->
    DataFrame_append env df_bids = Ok append ->
    append df_asks = Ok orderbook ->
    fst (get_orderbook env self symbol true w) = Ok (Frame orderbook) /\
    logged (snd (get_orderbook env self symbol true w)) = logged w.
Proof.
  intros frame env api_key api_secret debug symbol w response top result book
    bids asks df_bids df_asks orderbook append self Ht -> Hr Hb Hbids Hasks
    Hdb Hda Happ Hres.
  subst self. rewrite run_get_orderbook. cbv zeta. rewrite Ht.
  assert (Hf : get_orderbook_frame env (PyDict top) = Ok orderbook).
  { unfold get_orderbook_frame, getitem.
    rewrite Hr. cbn [bind_outcome]. rewrite Hb. cbn [bind_outcome].
    rewrite Hbids. cbn [bind_outcome]. rewrite Hdb. cbn [bind_outcome].
    rewrite Happ. cbn [bind_outcome]. rewrite Hasks. cbn [bind_outcome].
    rewrite Hda. cbn [bind_outcome]. exact Hres. }
  rewrite Hf. split; reflexivity.
Qed.

Lemma get_orderbook_frame_is_bids_then_asks_witness :
  let env := appending_env sample_orderbook in
  let self := __init__ env "KEY" "SECRET" false in
  let orderbook :=
    ( ["price"; "QTY"],
      PyList [ PyList [PyList [PyInt 87700000; PyInt 2000]];
               PyList [PyList [PyInt 87705000; PyInt 1000]] ] ) in
  fst (get_orderbook env self (PyStr "BTCUSD") true fresh_world) = Ok (Frame orderbook) /\
  logged (snd (get_orderbook env self (PyStr "BTCUSD") true fresh_world))
  = logged fresh_world.
Proof.
  apply (get_orderbook_frame_is_bids_then_asks (appending_env sample_orderbook)
           "KEY" "SECRET" false (PyStr "BTCUSD") fresh_world sample_orderbook
           [ ("error", PyNone); ("id", PyInt 0);
             ("result",
              PyDict [ ("book", PyDict [ ("asks", PyList [PyList [PyInt 87705000; PyInt 1000]]);
                                         ("bids", PyList [PyList [PyInt 87700000; PyInt 2000]]) ]);
                       ("depth", PyInt 30); ("symbol", PyStr "BTCUSD") ]) ]
           [ ("book", PyDict [ ("asks", PyList [PyList [PyInt 87705000; PyInt 1000]]);
                               ("bids", PyList [PyList [PyInt 87700000; PyInt 2000]]) ]);
             ("depth", PyInt 30); ("symbol", PyStr "BTCUSD") ]
           [ ("asks", PyList [PyList [PyInt 87705000; PyInt 1000]]);
             ("bids", PyList [PyList [PyInt 87700000; PyInt 2000]]) ]
           (PyList [PyList [PyInt 87700000; PyInt 2000]])
           (PyList [PyList [PyInt 87705000; PyInt 1000]])
           (["price"; "QTY"], PyList [PyList [PyInt 87700000; PyInt 2000]])
           (["price"; "QTY"], PyList [PyList [PyInt 87705000; PyInt 1000]])
           ( ["price"; "QTY"],
             PyList [ PyList [PyList [PyInt 87700000; PyInt 2000]];
                      PyList [PyList [PyInt 87705000; PyInt 1000]] ] )
           (fun other =>
              Ok (["price"; "QTY"],
                  PyList [PyList [PyList [PyInt 87700000; PyInt 2000]]; snd other])));
    reflexivity.
Defined.

(** ** Query strings of the endpoint methods *)

(** X9.  The parameters each query method sends, as they appear on the wire:
    the caller's argument passes through [str] and [quote_plus];
    [cancel_orders] always adds [untriggered=True] and
    [get_closed_orders] always adds [ordStatus=Filled]; none of them
    sends a body. *)
Theorem query_strings_of_endpoints :
  forall {frame : Type} (env : Collaborators frame) (api_key api_secret : string)
         (debug : bool) (arg : value) (is_dataframe : bool) (w : world),
    let self := __init__ env api_key api_secret debug in
    let wire (after : world) := map (fun r => (req_query r, req_body r)) (sent after) in
    let q := Urllib.quote_plus (str arg) in
    wire (snd (get_positions env self arg w))
    = wire w ++ [(("currency=" ++ q)%string, PyNone)]
    /\ wire (snd (get_balance env self arg w))
       = wire w ++ [(("currency=" ++ q)%string, PyNone)]
    /\ wire (snd (cancel_orders env self arg w))
       = wire w ++ [(("symbol=" ++ q ++ "&untriggered=True")%string, PyNone)]
    /\ wire (snd (get_closed_orders env self arg w))
       = wire w ++ [(("symbol=" ++ q ++ "&ordStatus=Filled")%string, PyNone)]
    /\ wire (snd (get_open_orders env self arg w))
       = wire w ++ [(("symbol=" ++ q)%string, PyNone)]
    /\ wire (snd (get_data env self arg is_dataframe w))
       = wire w ++ [(("symbol=" ++ q)%string, PyNone)]
    /\ wire (snd (get_orderbook env self arg is_dataframe w))
       = wire w ++ [(("symbol=" ++ q)%string, PyNone)].
Proof.
  intros frame env api_key api_secret debug arg is_dataframe w self wire q.
  subst self wire q.
  rewrite run_get_positions, run_get_balance, run_cancel_orders,
    run_get_closed_orders, run_get_open_orders, run_get_data, run_get_orderbook.
  cbv zeta.
  repeat match goal with |- _ /\ _ => split end;
    try (cbn [snd sent]; rewrite map_app; reflexivity).
  - destruct (transport env _) as [resp | e];
      [destruct is_dataframe; [destruct (get_data_frame env resp) |] |];
      cbn [snd sent]; rewrite map_app; reflexivity.
  - destruct (transport env _) as [resp | e];
      [destruct is_dataframe; [destruct (get_orderbook_frame env resp) |] |];
      cbn [snd sent]; rewrite map_app; reflexivity.
Qed.

(** ** Separators of the query string *)

Lemma count_char_app : forall c (a b : string),
  count_char c (a ++ b)%string = (count_char c a + count_char c b)%nat.
Proof.
  induction a; intros; simpl; auto.
  rewrite IHa. lia.
Qed.

Lemma quote_plus_char_no_ampersand : forall ch,
  count_char ampersand (Urllib.quote_plus_char ch) = O.
Proof. intros [[] [] [] [] [] [] [] []]; reflexivity. Qed.

Lemma quote_plus_char_no_equals : forall ch,
  count_char equals_sign (Urllib.quote_plus_char ch) = O.
Proof. intros [[] [] [] [] [] [] [] []]; reflexivity. Qed.

Lemma quote_plus_no_separator : forall s,
  count_char ampersand (Urllib.quote_plus s) = O /\
  count_char equals_sign (Urllib.quote_plus s) = O.
Proof.
  induction s as [|ch s [IHa IHe]]; simpl; [auto |].
  rewrite !count_char_app, quote_plus_char_no_ampersand, quote_plus_char_no_equals,
    IHa, IHe. auto.
Qed.

Lemma urlencode_item_separators : forall kv,
  count_char ampersand (Urllib.urlencode_item kv) = O /\
  count_char equals_sign (Urllib.urlencode_item kv) = 1%nat.
Proof.
  intros kv. unfold Urllib.urlencode_item.
  destruct (quote_plus_no_separator (fst kv)) as [Ka Ke].
  destruct (quote_plus_no_separator (str (snd kv))) as [Va Ve].
  rewrite !count_char_app, Ka, Ke, Va, Ve. split; reflexivity.
Qed.

Lemma urlencode_items_separators : forall items,
  count_char ampersand (Urllib.urlencode_items items) = (List.length items - 1)%nat /\
  count_char equals_sign (Urllib.urlencode_items items) = List.length items.
Proof.
  unfold Urllib.urlencode_items.
  induction items as [|kv [|kv' rest] IH].
  - split; reflexivity.
  - simpl. destruct (urlencode_item_separators kv) as [Ha He].
    rewrite Ha, He. split; reflexivity.
  - change (join "&" (map Urllib.urlencode_item (kv :: kv' :: rest)))
      with (Urllib.urlencode_item kv ++ "&"
            ++ join "&" (map Urllib.urlencode_item (kv' :: rest)))%string.
    destruct (urlencode_item_separators kv) as [Ha He].
    destruct IH as [IHa IHe].
    rewrite !count_char_app, Ha, He, IHa, IHe.
    simpl List.length. split.
    + replace (count_char ampersand "&") with 1%nat by reflexivity. lia.
    + replace (count_char equals_sign "&") with O by reflexivity. lia.
Qed.

(** ** The signing string has no delimiters *)

Lemma string_app_assoc : forall a b c : string,
  ((a ++ b) ++ c)%string = (a ++ b ++ c)%string.
Proof. induction a; intros; simpl; [| rewrite IHa]; reflexivity. Qed.

Lemma quote_plus_app : forall a b,
  Urllib.quote_plus (a ++ b) = (Urllib.quote_plus a ++ Urllib.quote_plus b)%string.
Proof.
  induction a; intros; simpl; [reflexivity |].
  rewrite IHa, string_app_assoc. reflexivity.
Qed.

Lemma quote_plus_safe : forall s,
  string_forallb is_safe_char s = true -> Urllib.quote_plus s = s.
Proof.
  induction s as [|c s IH]; simpl; [reflexivity |].
  intros H. apply andb_prop in H. destruct H as [Hc Hs].
  unfold Urllib.quote_plus_char. unfold is_safe_char in Hc. rewrite Hc.
  simpl. rewrite (IH Hs). reflexivity.
Qed.

Lemma string_of_uint_safe : forall u,
  string_forallb is_safe_char (NilEmpty.string_of_uint u) = true.
Proof. induction u; simpl; auto. Qed.

Lemma decimal_safe : forall z, string_forallb is_safe_char (decimal z) = true.
Proof.
  intros z. unfold decimal, NilZero.string_of_int, NilZero.string_of_uint.
  destruct (Z.to_int z) as [u | u]; destruct u; simpl; auto using string_of_uint_safe.
Qed.

(** X11.  The text signed joins path, query string and expiry without any
    delimiter, so digits may move between the last value and the expiry:
    whenever the decimal text of [e1] is [d] followed by that of [e2], the
    parameters [{k: v}] at expiry [e1] and the different parameters
    [{k: v + d}] at expiry [e2] get the same signature. *)
Theorem signing_string_does_not_delimit_expiry :
  forall (self : Phemex) (path k v d : string) (e1 e2 : Z),
    str (PyInt e1) = (d ++ str (PyInt e2))%string ->
    d <> EmptyString ->
    v <> (v ++ d)%string /\
    signature_of
      (_get_request_credentials self path e1 [("params", PyDict [(k, PyStr v)])])
    = signature_of
        (_get_request_credentials self path e2
           [("params", PyDict [(k, PyStr (v ++ d))])]).
Proof.
  intros self path k v d e1 e2 He Hd. split.
  - intros E. apply (f_equal String.length) in E.
    rewrite string_length_app in E.
    destruct d; [congruence | simpl in E; lia].
  - rewrite (credentials_params self path e1
               [("params", PyDict [(k, PyStr v)])] [(k, PyStr v)] eq_refl)
      by discriminate.
    rewrite (credentials_params self path e2
               [("params", PyDict [(k, PyStr (v ++ d))])] [(k, PyStr (v ++ d))] eq_refl)
      by discriminate.
    assert (Hsafe : string_forallb is_safe_char d = true).
    { pose proof (decimal_safe e1) as H.
      change (decimal e1) with (str (PyInt e1)) in H.
      rewrite He, string_forallb_app in H.
      apply andb_prop in H. tauto. }
    assert (Hc : canonical_params path (Urllib.urlencode_items [(k, PyStr v)]) e1
                 = canonical_params path
                     (Urllib.urlencode_items [(k, PyStr (v ++ d))]) e2).
    { unfold canonical_params, Urllib.urlencode_items, Urllib.urlencode_item.
      cbn [map join fst snd].
      change (str (PyStr v)) with v. change (str (PyStr (v ++ d))) with (v ++ d)%string.
      rewrite He.
      rewrite quote_plus_app, (quote_plus_safe d Hsafe).
      rewrite !string_app_assoc. reflexivity. }
    rewrite Hc. reflexivity.
Qed.

Lemma signing_string_does_not_delimit_expiry_witness :
  "BTCUSD" <> ("BTCUSD" ++ "1")%string /\
  signature_of
    (_get_request_credentials sample_client "/orders/activeList" 1700000001
       [("params", PyDict [("symbol", PyStr "BTCUSD")])])
  = signature_of
      (_get_request_credentials sample_client "/orders/activeList" 700000001
         [("params", PyDict [("symbol", PyStr ("BTCUSD" ++ "1"))])]).
Proof.
  apply (signing_string_does_not_delimit_expiry sample_client "/orders/activeList"
           "symbol" "BTCUSD" "1" 1700000001 700000001).
  - reflexivity.
  - discriminate.
Defined.

(** ** The secret as an HMAC key *)

Lemma encode_utf8_app : forall a b,
  encode_utf8 (a ++ b) = encode_utf8 a ++ encode_utf8 b.
Proof.
  unfold encode_utf8. induction a; intros; simpl; [reflexivity |].
  rewrite IHa. reflexivity.
Qed.

Lemma encode_utf8_length : forall s, List.length (encode_utf8 s) = String.length s.
Proof.
  unfold encode_utf8. induction s; simpl; [reflexivity |].
  rewrite IHs. reflexivity.
Qed.

Lemma block_key_trailing_zero : forall k,
  (List.length k < Hmac.block_size)%nat ->
  Hmac.block_key (k ++ [0%Z]) = Hmac.block_key k.
Proof.
  intros k Hk. unfold Hmac.block_key, Hmac.block_size in *.
  rewrite length_app. simpl List.length.
  destruct (Nat.ltb_spec 64 (List.length k + 1)) as [H | _]; [lia |].
  destruct (Nat.ltb_spec 64 (List.length k)) as [H | _]; [lia |].
  rewrite length_app. simpl List.length.
  replace (64 - List.length k)%nat with (S (64 - (List.length k + 1))) by lia.
  simpl repeat. rewrite <- app_assoc. reflexivity.
Qed.

(** X12.  HMAC pads a short key with zero bytes, so a secret of fewer than 64
    bytes and the same secret followed by a NUL character sign every text
    alike. *)
Theorem sign_ignores_trailing_nul_of_short_secret :
  forall (self1 self2 : Phemex) (data : string),
    (String.length (secret (exchange self1)) < 64)%nat ->
    secret (exchange self2)
    = (secret (exchange self1) ++ String nul EmptyString)%string ->
    _get_sign self2 data = _get_sign self1 data.
Proof.
  intros self1 self2 data Hlen Hs.
  unfold _get_sign, Hmac.hexdigest, Hmac.digest.
  rewrite Hs, encode_utf8_app.
  change (encode_utf8 (String nul EmptyString)) with [0%Z].
  rewrite block_key_trailing_zero; [reflexivity |].
  rewrite encode_utf8_length. exact Hlen.
Qed.

Lemma sign_ignores_trailing_nul_of_short_secret_witness :
  _get_sign (__init__ (sample_env sample_response) "KEY"
               ("SECRET" ++ String nul EmptyString) false)
    "/orders/activeListsymbol=BTCUSD1700000001"
  = _get_sign sample_client "/orders/activeListsymbol=BTCUSD1700000001".
Proof.
  apply (sign_ignores_trailing_nul_of_short_secret sample_client
           (__init__ (sample_env sample_response) "KEY"
              ("SECRET" ++ String nul EmptyString) false)
           "/orders/activeListsymbol=BTCUSD1700000001").
  - simpl. lia.
  - reflexivity.
Defined.

(** The block loop of SHA-256 never runs out of steps: any bound from the
    length of the message up gives the same hash value. *)
Lemma absorb_fuel_suffices : forall n m h bs,
  (List.length bs <= n)%nat -> (List.length bs <= m)%nat ->
  Hashlib.absorb n h bs = Hashlib.absorb m h bs.
Proof.
  induction n as [|n IH]; intros m h bs Hn Hm.
  - destruct bs; [| simpl in Hn; lia]. destruct m; reflexivity.
  - destruct bs as [|b bs]; [destruct m; reflexivity |].
    destruct m as [|m]; [simpl in Hm; lia |].
    cbn [Hashlib.absorb]. apply IH.
    + rewrite length_skipn. simpl in Hn |- *. lia.
    + rewrite length_skipn. simpl in Hm |- *. lia.
Qed.

(** ** The query string determines the parameters *)

Lemma unquote_quote_char : forall c rest,
  unquote_plus (Urllib.quote_plus_char c ++ rest) = String c (unquote_plus rest).
Proof. intros [[] [] [] [] [] [] [] []] rest; reflexivity. Qed.

Lemma unquote_quote_plus : forall s, unquote_plus (Urllib.quote_plus s) = s.
Proof.
  induction s as [|c s IH]; [reflexivity |].
  simpl Urllib.quote_plus. rewrite unquote_quote_char, IH. reflexivity.
Qed.

Lemma quote_plus_injective : forall a b,
  Urllib.quote_plus a = Urllib.quote_plus b -> a = b.
Proof.
  intros a b H. apply (f_equal unquote_plus) in H.
  rewrite !unquote_quote_plus in H. exact H.
Qed.

(** Two texts free of [c] that agree up to and after a first [c]. *)
Lemma split_at_separator : forall c (a a' x y : string),
  count_char c a = O -> count_char c a' = O ->
  (a ++ String c x)%string = (a' ++ String c y)%string ->
  a = a' /\ x = y.
Proof.
  intros c. induction a as [|h a IH]; intros [|h' a'] x y Ha Ha' H; simpl in *.
  - inversion H. auto.
  - inversion H. subst h'. rewrite Ascii.eqb_refl in Ha'. discriminate.
  - inversion H. subst h. rewrite Ascii.eqb_refl in Ha. discriminate.
  - inversion H. subst h'.
    destruct (Ascii.eqb c h); [discriminate |].
    destruct (IH a' x y Ha Ha' H2) as [-> ->]. auto.
Qed.

Lemma urlencode_item_injective : forall kv kv',
  Urllib.urlencode_item kv = Urllib.urlencode_item kv' ->
  fst kv = fst kv' /\ str (snd kv) = str (snd kv').
Proof.
  intros kv kv' H. unfold Urllib.urlencode_item in H.
  change ("=" ++ Urllib.quote_plus (str (snd kv)))%string
    with (String equals_sign (Urllib.quote_plus (str (snd kv)))) in H.
  change ("=" ++ Urllib.quote_plus (str (snd kv')))%string
    with (String equals_sign (Urllib.quote_plus (str (snd kv')))) in H.
  apply split_at_separator in H;
    try (apply (proj2 (quote_plus_no_separator _))).
  destruct H as [Hk Hv].
  split; apply quote_plus_injective; assumption.
Qed.

Lemma urlencode_items_injective : forall items items',
  Urllib.urlencode_items items = Urllib.urlencode_items items' ->
  parameter_texts items = parameter_texts items'.
Proof.
  unfold Urllib.urlencode_items, parameter_texts.
  assert (Hne : forall kv rest, (Urllib.urlencode_item kv ++ rest)%string <> EmptyString).
  { intros kv rest E. apply (f_equal (count_char equals_sign)) in E.
    rewrite count_char_app, (proj2 (urlencode_item_separators kv)) in E.
    simpl in E. discriminate. }
  assert (Hitem : forall kv, Urllib.urlencode_item kv <> EmptyString).
  { intros kv E. apply (f_equal (count_char equals_sign)) in E.
    rewrite (proj2 (urlencode_item_separators kv)) in E. discriminate. }
  assert (Hcons : forall kv kv' rest,
            join "&" (map Urllib.urlencode_item (kv :: kv' :: rest))
            = (Urllib.urlencode_item kv
               ++ String ampersand (join "&" (map Urllib.urlencode_item (kv' :: rest))))%string)
    by reflexivity.
  induction items as [|kv [|kv2 rest] IH]; intros [|kv' [|kv2' rest']] H.
  - reflexivity.
  - exfalso. apply (Hitem kv'). symmetry. exact H.
  - exfalso. rewrite Hcons in H. symmetry in H. simpl in H. apply (Hne _ _ H).
  - exfalso. apply (Hitem kv). exact H.
  - simpl in H. apply urlencode_item_injective in H. destruct H as [Hk Hv].
    simpl. rewrite Hk, Hv. reflexivity.
  - exfalso. rewrite Hcons in H.
    apply (f_equal (count_char ampersand)) in H.
    simpl join in H. simpl map in H.
    rewrite count_char_app in H.
    rewrite !(proj1 (urlencode_item_separators _)) in H.
    simpl in H. discriminate.
  - exfalso. simpl in H. apply (Hne kv _ H).
  - exfalso. rewrite Hcons in H.
    apply (f_equal (count_char ampersand)) in H.
    simpl join in H. simpl map in H.
    rewrite count_char_app in H.
    rewrite !(proj1 (urlencode_item_separators _)) in H.
    simpl in H. discriminate.
  - rewrite !Hcons in H.
    apply split_at_separator in H;
      try (apply (proj1 (urlencode_item_separators _))).
    destruct H as [Hi Hrest].
    apply urlencode_item_injective in Hi. destruct Hi as [Hk Hv].
    specialize (IH (kv2' :: rest') Hrest).
    simpl in IH |- *. rewrite Hk, Hv. f_equal. exact IH.
Qed.

Lemma string_app_inv_tail : forall (c a b : string),
  (a ++ c)%string = (b ++ c)%string -> a = b.
Proof.
  intros c. induction a as [|h a IH]; intros [|h' b] H; simpl in H.
  - reflexivity.
  - exfalso. apply (f_equal String.length) in H. simpl in H.
    rewrite string_length_app in H. lia.
  - exfalso. apply (f_equal String.length) in H. simpl in H.
    rewrite string_length_app in H. lia.
  - inversion H. f_equal. apply IH. assumption.
Qed.

(** X13.  For a given path and expiry the text signed determines the query
    parameters: two mappings with the same signing string have the same
    keys, in the same order, with the same value texts.  The order of the
    parameters is therefore part of what is signed. *)
Theorem signing_string_determines_parameters :
  forall (path : string) (expiry : Z) (items items' : list (string * value)),
    canonical_params path (Urllib.urlencode_items items) expiry
    = canonical_params path (Urllib.urlencode_items items') expiry ->
    parameter_texts items = parameter_texts items'.
Proof.
  intros path expiry items items' H.
  unfold canonical_params in H.
  apply string_app_inv_head in H. apply string_app_inv_tail in H.
  apply urlencode_items_injective. exact H.
Qed.

Lemma signing_string_determines_parameters_witness :
  parameter_texts [("symbol", PyStr "BTCUSD"); ("untriggered", PyBool true)]
  = parameter_texts [("symbol", PyStr "BTCUSD"); ("untriggered", PyStr "True")].
Proof.
  apply (signing_string_determines_parameters "/orders/all" 1700000001
           [("symbol", PyStr "BTCUSD"); ("untriggered", PyBool true)]
           [("symbol", PyStr "BTCUSD"); ("untriggered", PyStr "True")]).
  reflexivity.
Defined.
